(** * Table cleaning steps of [functions.py]

    A shallow embedding of the cleaning functions of [functions.py]
    (pandas [DataFrame] in, pandas [DataFrame] out) and the properties
    its specification states about them.

    Modelling choices, all of which follow the source:
    - a cell is a Python value: [None], a [str], an [int] or a [float];
    - a float is either NaN or a number.  Numbers are exact rationals:
      binary64 rounding and the infinities are outside the model;
    - a [Series] is the list of its cells, a [DataFrame] the ordered
      association list of its column labels and columns.  Row labels
      (the index) are not modelled, and column labels are text.  The
      tables meant have every label once; where a label occurs twice,
      [df[c]] is taken to read the first column of that label;
    - Python objects live in a store.  [df.copy()] allocates a new
      object, [df2[column] = ...] mutates the object [df2] refers to;
      exceptions abort the call and leave the store as it is at that
      point. *)

From Stdlib Require Import String Ascii List ZArith QArith Bool Lia.
From stdpp Require Import base option list strings gmap.

Local Open Scope string_scope.
Local Open Scope list_scope.

(** ** Python values held in cells *)

(** A binary64 float, idealised: NaN or an exact number. *)
Inductive pyfloat : Type :=
  | nan : pyfloat
  | fin (q : Q) : pyfloat.

Inductive value : Type :=
  | PyNone : value
  | Str (s : string) : value
  | Int (n : Z) : value
  | Float (x : pyfloat) : value.

(** Python exceptions raised by the code and by the pandas calls it
    makes.  [ReferenceError] stands for a reference that names no
    object of the store; no live reference raises it. *)
Inductive exn : Type :=
  | KeyError | IndexError | TypeError | AttributeError | ValueError
  | ReferenceError.

Inductive outcome (A : Type) : Type :=
  | Return (a : A) : outcome A
  | Raise (e : exn) : outcome A.
Arguments Return {A} a.
Arguments Raise {A} e.

#[global] Instance outcome_ret : MRet outcome := @Return.
#[global] Instance outcome_bind : MBind outcome := λ A B f m,
  match m with
  | Return a => f a
  | Raise e => Raise e
  end.
#[global] Instance outcome_fmap : FMap outcome := λ A B f m,
  match m with
  | Return a => Return (f a)
  | Raise e => Raise e
  end.

(** [pd.isnull] / [pd.notnull] on a scalar. *)
Definition isnull (x : value) : bool :=
  match x with
  | PyNone | Float nan => true
  | _ => false
  end.

Definition notnull (x : value) : bool := negb (isnull x).

Definition is_str (x : value) : bool :=
  match x with Str _ => true | _ => false end.

Definition is_number (x : value) : bool :=
  match x with Int _ | Float _ => true | _ => false end.

(** ** The [str] methods the code calls

    A [string] is a sequence of bytes; the case mappings act on the
    ASCII letters.  The code compares the results with ASCII text only
    (["M"], ["F"], ["st"]), and no character outside ASCII has an ASCII
    letter as its upper case. *)

Definition upper_ascii (c : ascii) : ascii :=
  let n := nat_of_ascii c in
  if (97 <=? n)%nat && (n <=? 122)%nat then ascii_of_nat (n - 32) else c.

Definition lower_ascii (c : ascii) : ascii :=
  let n := nat_of_ascii c in
  if (65 <=? n)%nat && (n <=? 90)%nat then ascii_of_nat (n + 32) else c.

Fixpoint str_map (f : ascii → ascii) (s : string) : string :=
  match s with
  | EmptyString => EmptyString
  | String c s' => String (f c) (str_map f s')
  end.

(** [s.upper()] and [s.lower()] *)
Definition upper (s : string) : string := str_map upper_ascii s.
Definition lower (s : string) : string := str_map lower_ascii s.

(** [s.replace(old, new)] for a one-character [old]: every occurrence
    is replaced. *)
Fixpoint str_replace (old : ascii) (new : string) (s : string) : string :=
  match s with
  | EmptyString => EmptyString
  | String c s' =>
      if Ascii.eqb c old then new +:+ str_replace old new s'
      else String c (str_replace old new s')
  end.

(** [s.split(sep)] for a one-character [sep]: the segments between the
    separators, of which there is always at least one. *)
Fixpoint str_split (sep : ascii) (s : string) : list string :=
  match s with
  | EmptyString => [EmptyString]
  | String c s' =>
      if Ascii.eqb c sep then EmptyString :: str_split sep s'
      else match str_split sep s' with
           | [] => [String c EmptyString]
           | w :: ws => String c w :: ws
           end
  end.

(** [x[0]] on a cell: the first character of a text; [IndexError] on
    the empty text, [TypeError] on what is not subscriptable. *)
Definition subscript0 (x : value) : outcome string :=
  match x with
  | Str (String c _) => Return (String c EmptyString)
  | Str EmptyString => Raise IndexError
  | PyNone | Int _ | Float _ => Raise TypeError
  end.

(** [c in l] for a list of texts *)
Definition str_in (c : string) (l : list string) : bool :=
  existsb (String.eqb c) l.

(** ** Series *)

Abbreviation Series := (list value).

(** [s.apply(f)]: [f] on every cell, first to last; the first exception
    aborts the call. *)
Definition Series_apply (f : value → outcome value) (s : Series) : outcome Series :=
  foldr (λ x acc, y ← f x; ys ← acc; mret (y :: ys)) (mret []) s.

(** [s.replace(d)] for a dict [d] of texts: a cell equal to a key
    becomes the key's value, every other cell is kept. *)
Definition replace_value (d : gmap string string) (x : value) : value :=
  match x with
  | Str k => match d !! k with
             | Some v => Str v
             | None => x
             end
  | _ => x
  end.

Definition Series_replace (d : gmap string string) (s : Series) : Series :=
  replace_value d <$> s.

(** The [.str] accessor exists on columns of text only: pandas raises
    [AttributeError] on a numeric column, that is when the column holds
    numbers (NaN among them) and no text.  Nulls apart, a column of
    text and numbers mixed has the accessor. *)
Definition has_str_accessor (s : Series) : bool :=
  existsb is_str s || negb (existsb is_number s).

(** [s.str.split(pat)]: the list of segments for a text, NaN (here
    [None]) for every other cell. *)
Definition Series_str_split (pat : ascii) (s : Series) :
    outcome (list (option (list string))) :=
  if has_str_accessor s then
    Return ((λ x, match x with
                  | Str t => Some (str_split pat t)
                  | _ => None
                  end) <$> s)
  else Raise AttributeError.

(** [s.str[i]] on a column of lists: element [i] where there is one,
    NaN otherwise. *)
Definition Series_str_get (i : nat) (s : list (option (list string))) : Series :=
  (λ x, match x with
        | Some l => match l !! i with
                    | Some w => Str w
                    | None => Float nan
                    end
        | None => Float nan
        end) <$> s.

(** [s.fillna(v)]: every null cell becomes the float [v]. *)
Definition Series_fillna (v : pyfloat) (s : Series) : Series :=
  (λ x, if isnull x then Float v else x) <$> s.

(** The numbers of a column, nulls skipped, as [s.mean()] reads them;
    pandas has no mean of a column with text in it. *)
Fixpoint Series_numbers (s : Series) : outcome (list Q) :=
  match s with
  | [] => Return []
  | x :: s' =>
      match x with
      | PyNone | Float nan => Series_numbers s'
      | Int n => qs ← Series_numbers s'; mret (inject_Z n :: qs)
      | Float (fin q) => qs ← Series_numbers s'; mret (q :: qs)
      | Str _ => Raise TypeError
      end
  end.

Definition Qsum (qs : list Q) : Q := foldr Qplus 0%Q qs.

(** [s.mean()], nulls skipped: the sum of the numbers over how many
    they are, NaN when there is none. *)
Definition mean_of (qs : list Q) : pyfloat :=
  match qs with
  | [] => nan
  | _ :: _ => fin (Qsum qs / inject_Z (Z.of_nat (length qs)))
  end.

Definition Series_mean (s : Series) : outcome pyfloat :=
  mean_of <$> Series_numbers s.

(** ** DataFrames *)

Abbreviation DataFrame := (list (string * Series)).

(** [df.columns] *)
Definition labels (t : DataFrame) : list string := t.*1.

(** The column [df[c]] reads, if there is one. *)
Fixpoint lookup_column (c : string) (t : DataFrame) : option Series :=
  match t with
  | [] => None
  | (l, s) :: t' => if String.eqb l c then Some s else lookup_column c t'
  end.

(** What [df[c] = s] makes of the table: the column labelled [c] gets
    the cells [s] and keeps its place; a label the table does not have
    yet is a new last column. *)
Definition assign_column (c : string) (s : Series) (t : DataFrame) : DataFrame :=
  if existsb (String.eqb c) (labels t)
  then (λ p, if String.eqb p.1 c then (p.1, s) else p) <$> t
  else t ++ [(c, s)].

(** [df.rename(columns=d)] *)
Definition rename_columns (d : gmap string string) (t : DataFrame) : DataFrame :=
  (λ p, (default p.1 (d !! p.1), p.2)) <$> t.

(** Rows, for [dropna]: the table has as many rows as its columns have
    cells, and row [i] is made of cell [i] of every column. *)
Definition nrows (t : DataFrame) : nat :=
  match t with
  | [] => 0
  | p :: _ => length p.2
  end.

Definition row (t : DataFrame) (i : nat) : list value :=
  omap (λ p, p.2 !! i) t.

Fixpoint select {A} (keep : list bool) (l : list A) : list A :=
  match keep, l with
  | b :: keep', x :: l' => if b then x :: select keep' l' else select keep' l'
  | _, _ => []
  end.

(** [df.dropna(axis=0, how='all')]: the rows all of whose cells are
    null go, the others stay in their order. *)
Definition dropna_all (t : DataFrame) : DataFrame :=
  let keep := (λ i, negb (forallb isnull (row t i))) <$> seq 0 (nrows t) in
  (λ p, (p.1, select keep p.2)) <$> t.

(** ** The store of objects *)

Abbreviation ref := nat.
Abbreviation heap := (list DataFrame).

Definition Py (A : Type) : Type := heap → outcome A * heap.

#[global] Instance Py_ret : MRet Py := λ A a h, (Return a, h).
#[global] Instance Py_bind : MBind Py := λ A B f m h,
  match m h with
  | (Return a, h') => f a h'
  | (Raise e, h') => (Raise e, h')
  end.

Definition raise {A} (e : exn) : Py A := λ h, (Raise e, h).

(** A pandas call that touches no object of the store *)
Definition lift {A} (o : outcome A) : Py A := λ h, (o, h).

Definition deref (df : ref) : Py DataFrame := λ h,
  match h !! df with
  | Some t => (Return t, h)
  | None => (Raise ReferenceError, h)
  end.

Definition alloc (t : DataFrame) : Py ref := λ h, (Return (length h), h ++ [t]).

Definition assign (df : ref) (t : DataFrame) : Py unit := λ h, (Return (), <[df := t]> h).

(** [df.copy()]: a new object with the same columns and cells *)
Definition copy (df : ref) : Py ref :=
  t ← deref df; alloc t.

(** [df[column]] *)
Definition getitem (df : ref) (column : string) : Py Series :=
  t ← deref df;
  match lookup_column column t with
  | Some s => mret s
  | None => raise KeyError
  end.

(** [df[column] = s] and [df.loc[:, column] = s]: the object is changed
    in place. *)
Definition setitem (df : ref) (column : string) (s : Series) : Py unit :=
  t ← deref df; assign df (assign_column column s t).

Definition loc_setitem (df : ref) (column : string) (s : Series) : Py unit :=
  setitem df column s.

(** [df.columns] and [df.columns = names] *)
Definition get_columns (df : ref) : Py (list string) :=
  t ← deref df; mret (labels t).

Definition set_columns (df : ref) (names : list string) : Py unit :=
  t ← deref df;
  if (length names =? length t)%nat
  then assign df (zip names t.*2)
  else raise ValueError.

(** [df.rename(columns=d)] and [df.dropna(axis=0, how='all')] return a
    new object. *)
Definition rename (df : ref) (d : gmap string string) : Py ref :=
  t ← deref df; alloc (rename_columns d t).

Definition dropna (df : ref) : Py ref :=
  t ← deref df; alloc (dropna_all t).

(** ** The functions of [functions.py] *)

(** The default of each [column] parameter *)
Module Default.
Definition clean_gender : string := "gender".
Definition clean_state : string := "state".
Definition clean_education : string := "education".
Definition clean_clv : string := "customer_lifetime_value".
Definition clean_car_class : string := "vehicle_class".
Definition split_keep_middle : string := "number_of_open_complaints".
Definition fill_with_mean : string := "customer_lifetime_value".
End Default.

Definition clean_col_name (df : ref) : Py ref :=
  df2 ← copy df;
  cols ← get_columns df2;
  set_columns df2 (lower <$> cols);;
  cols ← get_columns df2;
  set_columns df2 ((λ x, str_replace " " "_" x) <$> cols);;
  df2 ← rename df2 {[ "st" := "state" ]};
  mret df2.

(** [lambda x: x[0].upper() if pd.notnull(x) and x[0].upper() in ['M','F'] else "D"] *)
Definition gender_lambda (x : value) : outcome value :=
  if notnull x then
    c ← subscript0 x;
    if str_in (upper c) ["M"; "F"]
    then c' ← subscript0 x; mret (Str (upper c'))
    else mret (Str "D")
  else mret (Str "D").

Definition clean_gender (df : ref) (column : string) : Py ref :=
  df2 ← copy df;
  s ← getitem df2 column;
  s' ← lift (Series_apply gender_lambda s);
  setitem df2 column s';;
  mret df2.

Definition state_dict : gmap string string :=
  {[ "AZ" := "Arizona"; "Cali" := "California"; "WA" := "Washington" ]}.

Definition clean_state (df : ref) (column : string) : Py ref :=
  df2 ← copy df;
  s ← getitem df2 column;
  setitem df2 column (Series_replace state_dict s);;
  mret df2.

Definition education_dict : gmap string string :=
  {[ "Bachelors" := "Bachelor" ]}.

Definition clean_education (df : ref) (column : string) : Py ref :=
  df2 ← copy df;
  s ← getitem df2 column;
  setitem df2 column (Series_replace education_dict s);;
  mret df2.

(** [lambda x: x.replace('%','') if pd.notnull(x) else x]; a number has
    no [replace]. *)
Definition clv_lambda (x : value) : outcome value :=
  if notnull x then
    match x with
    | Str s => Return (Str (str_replace "%" "" s))
    | _ => Raise AttributeError
    end
  else mret x.

Definition clean_clv (df : ref) (column : string) : Py ref :=
  df2 ← copy df;
  s ← getitem df2 column;
  s' ← lift (Series_apply clv_lambda s);
  setitem df2 column s';;
  mret df2.

Definition car_classes_dict : gmap string string :=
  {[ "Sports Car" := "Luxury"; "Luxury SUV" := "Luxury"; "Luxury Car" := "Luxury" ]}.

Definition clean_car_class (df : ref) (column : string) : Py ref :=
  df2 ← copy df;
  s ← getitem df2 column;
  setitem df2 column (Series_replace car_classes_dict s);;
  mret df2.

Definition split_keep_middle (df : ref) (column : string) : Py ref :=
  df2 ← copy df;
  s ← getitem df2 column;
  parts ← lift (Series_str_split "/" s);
  setitem df2 column (Series_str_get 1 parts);;
  mret df2.

Definition drop_null_rows (df : ref) : Py ref :=
  df2 ← copy df;
  df2 ← dropna df2;
  mret df2.

Section Conversions.

(** Python's [float(s)] and [int(s)] on a text: the number read, or
    nothing where Python raises [ValueError]. *)
Variable py_float : string → option pyfloat.
Variable py_int : string → option Z.

(** One cell under [astype(float)] *)
Definition to_float (x : value) : outcome value :=
  match x with
  | PyNone => Return (Float nan)
  | Str s => match py_float s with
             | Some f => Return (Float f)
             | None => Raise ValueError
             end
  | Int n => Return (Float (fin (inject_Z n)))
  | Float f => Return (Float f)
  end.

Definition Series_astype_float (s : Series) : outcome Series :=
  Series_apply to_float s.

(** One cell under [astype(int)]: a float is truncated towards zero,
    NaN has no integer. *)
Definition to_int (x : value) : outcome value :=
  match x with
  | PyNone => Raise TypeError
  | Str s => match py_int s with
             | Some n => Return (Int n)
             | None => Raise ValueError
             end
  | Int n => Return (Int n)
  | Float nan => Raise ValueError
  | Float (fin q) => Return (Int (Z.quot (Qnum q) (Z.pos (Qden q))))
  end.

Definition Series_astype_int (s : Series) : outcome Series :=
  Series_apply to_int s.

Definition fill_with_mean (df : ref) (column : string) : Py ref :=
  df2 ← copy df;
  s ← getitem df2 column;
  s' ← lift (Series_astype_float s);
  setitem df2 column s';;
  s1 ← getitem df2 column;
  s2 ← getitem df2 column;
  m ← lift (Series_mean s2);
  loc_setitem df2 column (Series_fillna m s1);;
  mret df2.

Definition num_var : list string :=
  ["customer_lifetime_value"; "income"; "monthly_premium_auto";
   "number_of_open_complaints"; "total_claim_amount"].

(** [df2[num_var] = df2[num_var].apply(lambda x: x.astype(int))]:
    the columns are read, converted one after the other, and written
    back. *)
Fixpoint getitems (df : ref) (cs : list string) : Py (list Series) :=
  match cs with
  | [] => mret []
  | c :: cs' => s ← getitem df c; ss ← getitems df cs'; mret (s :: ss)
  end.

Fixpoint astype_int_each (ss : list Series) : outcome (list Series) :=
  match ss with
  | [] => Return []
  | s :: ss' => s' ← Series_astype_int s; r ← astype_int_each ss'; mret (s' :: r)
  end.

Fixpoint setitems (df : ref) (cs : list string) (ss : list Series) : Py unit :=
  match cs, ss with
  | c :: cs', s :: ss' => setitem df c s;; setitems df cs' ss'
  | _, _ => mret ()
  end.

Definition num_to_int (df : ref) : Py ref :=
  df2 ← copy df;
  ss ← getitems df2 num_var;
  ss' ← lift (astype_int_each ss);
  setitems df2 num_var ss';;
  mret df2.

(** The runner.  Its second parameter, [column], may be any Python
    value; the body never reads it. *)
Definition clean_dataframe {A : Type} (df : ref) (column : A) : Py ref :=
  df2 ← copy df;
  df2 ← clean_col_name df;
  df2 ← drop_null_rows df2;
  df2 ← clean_gender df2 Default.clean_gender;
  df2 ← clean_state df2 Default.clean_state;
  df2 ← clean_education df2 Default.clean_education;
  df2 ← clean_clv df2 Default.clean_clv;
  df2 ← split_keep_middle df2 Default.split_keep_middle;
  df2 ← fill_with_mean df2 Default.fill_with_mean;
  mret df2.

End Conversions.

(** ** Calling a step

    [call f t]: a caller holds the table [t] as its only object, calls
    the step [f] on it and reads the table the step returns. *)
Definition call (f : ref → Py ref) (t : DataFrame) : outcome DataFrame :=
  match f 0%nat [t] with
  | (Return r, h) => match h !! r with
                     | Some t' => Return t'
                     | None => Raise ReferenceError
                     end
  | (Raise e, _) => Raise e
  end.

(** ** What a step does to the store

    [runs_as f g]: called on a reference to a table [t], in any store,
    the step [f] only adds objects to the store; it raises what [g t]
    raises, and where [g t] is a table it returns a reference to a new
    object holding that table. *)
Definition runs_as (f : ref → Py ref) (g : DataFrame → outcome DataFrame) : Prop :=
  ∀ (h : heap) (df : ref) (t : DataFrame),
    h !! df = Some t →
    ∃ ext : heap,
      (f df h).2 = h ++ ext ∧
      match g t with
      | Return t' =>
          ∃ r : ref,
            (f df h).1 = Return r ∧ (h ++ ext) !! r = Some t' ∧ (length h ≤ r)%nat
      | Raise e => (f df h).1 = Raise e
      end.

(** ** The tables the steps return

    The steps seen as functions from the table given to the table
    returned, or to the exception raised; they are proved below to be
    what the steps of the module compute. *)

(** [df.columns = f(df.columns)], label by label *)
Definition relabel (f : string → string) (t : DataFrame) : DataFrame :=
  (λ p, (f p.1, p.2)) <$> t.

(** A column cleaner that makes the cells [k s] of the cells [s] *)
Definition column_table (k : Series → outcome Series) (column : string)
    (t : DataFrame) : outcome DataFrame :=
  match lookup_column column t with
  | None => Raise KeyError
  | Some s => s' ← k s; mret (assign_column column s' t)
  end.

(** The shape the column cleaners share: copy, read the column, compute
    the new cells, write them to the copy, return the copy. *)
Definition column_step (k : Series → outcome Series) (df : ref) (column : string) :
    Py ref :=
  df2 ← copy df;
  s ← getitem df2 column;
  s' ← lift (k s);
  setitem df2 column s';;
  mret df2.

(** The tables the steps other than the plain column cleaners return *)
Module Table.

Definition clean_col_name (t : DataFrame) : DataFrame :=
  rename_columns {[ "st" := "state" ]}
    (relabel (str_replace " " "_") (relabel lower t)).

Definition fill_with_mean (py_float : string → option pyfloat) (column : string)
    (t : DataFrame) : outcome DataFrame :=
  column_table
    (λ s, s' ← Series_astype_float py_float s;
          m ← Series_mean s';
          mret (Series_fillna m s'))
    column t.

Fixpoint lookup_columns (cs : list string) (t : DataFrame) : outcome (list Series) :=
  match cs with
  | [] => Return []
  | c :: cs' =>
      match lookup_column c t with
      | Some s => ss ← lookup_columns cs' t; mret (s :: ss)
      | None => Raise KeyError
      end
  end.

Fixpoint assign_columns (cs : list string) (ss : list Series) (t : DataFrame) :
    DataFrame :=
  match cs, ss with
  | c :: cs', s :: ss' => assign_columns cs' ss' (assign_column c s t)
  | _, _ => t
  end.

Definition num_to_int (py_int : string → option Z) (t : DataFrame) : outcome DataFrame :=
  ss ← lookup_columns num_var t;
  ss' ← astype_int_each py_int ss;
  mret (assign_columns num_var ss' t).

End Table.

(** The table the runner returns: the steps' tables, one after the
    other. *)
Definition clean_dataframe_table (py_float : string → option pyfloat)
    (t : DataFrame) : outcome DataFrame :=
  t ← Return (Table.clean_col_name t);
  t ← Return (dropna_all t);
  t ← column_table (Series_apply gender_lambda) Default.clean_gender t;
  t ← column_table (λ s, Return (Series_replace state_dict s)) Default.clean_state t;
  t ← column_table (λ s, Return (Series_replace education_dict s))
        Default.clean_education t;
  t ← column_table (Series_apply clv_lambda) Default.clean_clv t;
  t ← column_table (λ s, Series_str_get 1 <$> Series_str_split "/" s)
        Default.split_keep_middle t;
  Table.fill_with_mean py_float Default.fill_with_mean t.

(** ** Notions the properties are stated with *)

(** No value of the dict is one of its keys: a second replacement
    finds nothing to replace. *)
Definition closed_dict (d : gmap string string) : Prop :=
  map_Forall (λ _ v, d !! v = None) d.

(** Applying the cleaner to the table it returned gives that table
    again; where the first call raises there is no second one. *)
Definition idempotent_cleaner (f : ref → string → Py ref) : Prop :=
  ∀ (column : string) (t : DataFrame),
    (t' ← call (λ df, f df column) t; call (λ df, f df column) t')
    = call (λ df, f df column) t.

(** On a table that has the column, the cleaner returns the table with
    new cells for that column, as many as before, and a cell that is
    not one of the texts [keys] is the cell it was. *)
Definition keeps_unmapped (f : ref → string → Py ref) (keys : list string) : Prop :=
  ∀ (column : string) (t : DataFrame) (s : Series),
    lookup_column column t = Some s →
    ∃ s' : Series,
      call (λ df, f df column) t = Return (assign_column column s' t) ∧
      length s' = length s ∧
      ∀ (i : nat) (x : value),
        s !! i = Some x → (∀ k, k ∈ keys → x ≠ Str k) → s' !! i = Some x.

(** What [clv_lambda] makes of a null or text cell *)
Definition strip_percent (x : value) : value :=
  match x with
  | Str v => Str (str_replace "%" "" v)
  | _ => x
  end.

(** What [.str.split("/").str[1]] makes of a cell of a text column *)
Definition second_segment (x : value) : value :=
  match x with
  | Str v => match str_split "/" v !! 1%nat with
             | Some w => Str w
             | None => Float nan
             end
  | _ => Float nan
  end.


Section Readings.

Variable py_float : string → option pyfloat.

(** The numbers the non-null cells of a column are read as *)
Definition numbers_read (s : Series) : list Q :=
  omap (λ x, if isnull x then None
             else match to_float py_float x with
                  | Return (Float (fin q)) => Some q
                  | _ => None
                  end) s.

(** A cell is readable if it is null or is read as a number. *)
Definition readable (x : value) : Prop :=
  isnull x = true ∨ ∃ q : Q, to_float py_float x = Return (Float (fin q)).

(** The float a readable cell becomes under [astype(float)] *)
Definition as_float (x : value) : value :=
  match to_float py_float x with
  | Return y => y
  | Raise _ => Float nan
  end.

End Readings.

(** A step is pure if, called on a reference to a table in any store,
    it leaves every object of that store as it is (the caller's table
    among them), and what it returns refers to an object that was not
    in the store before. *)
Definition pure_step (f : ref → Py ref) : Prop :=
  ∀ (h : heap) (df : ref) (t : DataFrame),
    h !! df = Some t →
    (∀ (l : ref) (t0 : DataFrame), h !! l = Some t0 → (f df h).2 !! l = Some t0) ∧
    (∀ r : ref, (f df h).1 = Return r →
                (length h ≤ r)%nat ∧ is_Some ((f df h).2 !! r)).

(** A column cleaner keeps the frame if the table it returns has the
    labels of the table given, in their order, and at every place whose
    label is not the target column the column that was there. *)
Definition keeps_frame (f : ref → string → Py ref) : Prop :=
  ∀ (column : string) (t t' : DataFrame),
    call (λ df, f df column) t = Return t' →
    labels t' = labels t ∧
    ∀ (i : nat) (l : string) (s : Series),
      t !! i = Some (l, s) → l ≠ column → t' !! i = Some (l, s).

(** ** Notions for further properties *)

(** The label [clean_col_name] gives a column labelled [l]: lower case,
    spaces replaced, and [state] for [st]. *)
Definition clean_label (l : string) : string :=
  let x := str_replace " " "_" (lower l) in
  if decide (x = "st") then "state" else x.

(** A table is rectangular if its columns have as many cells each. *)
Definition rectangular (t : DataFrame) : Prop :=
  Forall (λ p, length p.2 = nrows t) t.

(** The rows of a table, first to last *)
Definition rows (t : DataFrame) : list (list value) :=
  row t <$> seq 0 (nrows t).

(** The number of cells of each column *)
Definition column_lengths (t : DataFrame) : list nat :=
  (λ p, length p.2) <$> t.

(** A row is empty if all its cells are null. *)
Definition empty_row (r : list value) : bool := forallb isnull r.



Definition is_float (x : value) : bool :=
  match x with Float _ => true | _ => false end.



(** The cleaner returns, for a rectangular table, a rectangular table
    with as many rows. *)
Definition keeps_rows (f : ref → string → Py ref) : Prop :=
  ∀ (column : string) (t t' : DataFrame),
    rectangular t →
    call (λ df, f df column) t = Return t' →
    rectangular t' ∧ column_lengths t' = column_lengths t.

(** ** Tables and readings for examples *)

(** A reading of plain decimal numerals, ["15.5"] or ["42"]: a part of
    what [float] and [int] read, to run the examples with. *)
Definition digit_of (c : ascii) : option Z :=
  let n := nat_of_ascii c in
  if (48 <=? n)%nat && (n <=? 57)%nat then Some (Z.of_nat (n - 48)) else None.

Fixpoint read_digits (s : string) (acc : Z) (scale : positive) (frac : bool) : option Q :=
  match s with
  | EmptyString => Some (Qmake acc scale)
  | String c s' =>
      if Ascii.eqb c "." then
        if frac then None else read_digits s' acc scale true
      else match digit_of c with
           | Some d =>
               read_digits s' (10 * acc + d)
                 (if frac then 10 * scale else scale)%positive frac
           | None => None
           end
  end.

Definition decimal_float (s : string) : option pyfloat :=
  match s with
  | EmptyString => None
  | "." => None
  | _ => fin <$> read_digits s 0 1 false
  end.

Definition decimal_int (s : string) : option Z :=
  match s with
  | EmptyString => None
  | _ => match read_digits s 0 1 false with
         | Some (Qmake n 1) => Some n
         | _ => None
         end
  end.

Definition clv_example : DataFrame :=
  [("customer", [Str "A"; Str "B"; Str "C"]);
   ("customer_lifetime_value", [Str "15.5"; PyNone; Float (fin 4.5)])].

Definition state_example : DataFrame :=
  [("customer", [Str "A"; Str "B"; Str "C"]);
   ("state", [Str "AZ"; PyNone; Str "Oregon"])].

Definition gender_example : DataFrame :=
  [("state", [Str "AZ"; Str "Oregon"; PyNone]);
   ("gender", [Str "F"; Str "m"; PyNone])].


Definition percent_example : DataFrame :=
  [("customer", [Str "A"; Str "B"]);
   ("customer_lifetime_value", [Str "15.5%"; PyNone])].

Definition null_example : DataFrame :=
  [("customer", [Str "A"; Str "B"]);
   ("customer_lifetime_value", [PyNone; Float nan])].

(** A raw table as the loader gives it: the second row is empty. *)
Definition raw_example : DataFrame :=
  [("Customer", [Str "A1"; PyNone; Str "B2"; Str "C3"]);
   ("ST", [Str "AZ"; PyNone; Str "Cali"; Str "Oregon"]);
   ("GENDER", [Str "female"; Float nan; PyNone; Str "Male"]);
   ("Education", [Str "Bachelors"; PyNone; Str "Master"; PyNone]);
   ("Customer Lifetime Value", [Str "15.5%"; Float nan; PyNone; Str "4.5%"]);
   ("Vehicle Class", [Str "Sports Car"; PyNone; Str "SUV"; Str "Luxury Car"]);
   ("Number of Open Complaints", [Str "1/5/00"; PyNone; Str "1/0/00"; PyNone])].

(** A table with the five numeric columns *)
Definition numeric_example : DataFrame :=
  [("customer", [Str "A"; Str "B"]);
   ("customer_lifetime_value", [Float (fin 15.5); Float (fin 4.5)]);
   ("income", [Int 100; Int 0]);
   ("monthly_premium_auto", [Float (fin 7); Float (fin 99.9)]);
   ("number_of_open_complaints", [Str "5"; Str "0"]);
   ("total_claim_amount", [Float (fin 2.7); Float (fin (-2.7))])].

(** ** Lemmas on the store *)

Lemma bind_Return {A B} (m : Py A) (f : A → Py B) (h : heap) a h' :
  m h = (Return a, h') → (m ≫= f) h = f a h'.
Proof. intros E. unfold mbind, Py_bind. by rewrite E. Qed.

Lemma bind_Raise {A B} (m : Py A) (f : A → Py B) (h : heap) e h' :
  m h = (Raise e, h') → (m ≫= f) h = (Raise e, h').
Proof. intros E. unfold mbind, Py_bind. by rewrite E. Qed.

(** [run_bind E]: run the first call of a sequence by its equation [E]. *)
Tactic Notation "run_bind" uconstr(E) := rewrite (bind_Return _ _ _ _ _ E).

Section Store.

Implicit Types (h : heap) (df : ref) (t : DataFrame).

Lemma lookup_snoc h t : (h ++ [t]) !! length h = Some t.
Proof. by rewrite list_lookup_middle. Qed.

Lemma insert_snoc h t t' : <[length h := t']> (h ++ [t]) = h ++ [t'].
Proof.
  rewrite insert_app_r_alt by lia.
  by replace (length h - length h)%nat with 0%nat by lia.
Qed.

Lemma deref_run h df t : h !! df = Some t → deref df h = (Return t, h).
Proof. intros E. unfold deref. by rewrite E. Qed.

Lemma copy_run h df t :
  h !! df = Some t → copy df h = (Return (length h), h ++ [t]).
Proof. intros E. unfold copy. by run_bind (deref_run _ _ _ E). Qed.

Lemma getitem_run h df t column :
  h !! df = Some t →
  getitem df column h =
    (match lookup_column column t with
     | Some s => Return s
     | None => Raise KeyError
     end, h).
Proof.
  intros E. unfold getitem.
  run_bind (deref_run _ _ _ E).
  by destruct (lookup_column column t).
Qed.

Lemma setitem_run h df t column s :
  h !! df = Some t →
  setitem df column s h = (Return (), <[df := assign_column column s t]> h).
Proof. intros E. unfold setitem. by run_bind (deref_run _ _ _ E). Qed.

Lemma get_columns_run h df t :
  h !! df = Some t → get_columns df h = (Return (labels t), h).
Proof. intros E. unfold get_columns. by run_bind (deref_run _ _ _ E). Qed.

Lemma zip_relabel (f : string → string) t : zip (f <$> labels t) t.*2 = relabel f t.
Proof.
  unfold relabel, labels. induction t as [|[l s] t IH]; [done|].
  rewrite !fmap_cons. cbn [zip zip_with]. by rewrite IH.
Qed.

Lemma set_columns_run h df t (f : string → string) :
  h !! df = Some t →
  set_columns df (f <$> labels t) h = (Return (), <[df := relabel f t]> h).
Proof.
  intros E. unfold set_columns.
  run_bind (deref_run _ _ _ E).
  unfold labels. rewrite !length_fmap, Nat.eqb_refl.
  unfold assign. by rewrite <- zip_relabel.
Qed.

Lemma rename_run h df t d :
  h !! df = Some t → rename df d h = (Return (length h), h ++ [rename_columns d t]).
Proof. intros E. unfold rename. by run_bind (deref_run _ _ _ E). Qed.

Lemma dropna_run h df t :
  h !! df = Some t → dropna df h = (Return (length h), h ++ [dropna_all t]).
Proof. intros E. unfold dropna. by run_bind (deref_run _ _ _ E). Qed.

End Store.

(** ** Steps as functions of the table *)

Lemma runs_as_call f g t : runs_as f g → call f t = g t.
Proof.
  intros Hf. destruct (Hf [t] 0%nat t eq_refl) as (ext & Hh & Hr).
  unfold call. destruct (f 0%nat [t]) as [o h']. cbn [fst snd] in Hh, Hr. subst h'.
  destruct (g t) as [t'|e].
  - destruct Hr as (r & -> & Hl & _). lazy beta iota. by rewrite Hl.
  - by rewrite Hr.
Qed.

Lemma runs_as_bind f1 g1 f2 g2 :
  runs_as f1 g1 → runs_as f2 g2 →
  runs_as (λ df, r ← f1 df; f2 r) (λ t, t' ← g1 t; g2 t').
Proof.
  intros H1 H2 h df t E.
  destruct (H1 h df t E) as (ext1 & Hh1 & Hr1).
  destruct (f1 df h) as [o1 h1] eqn:E1. cbn [fst snd] in Hh1, Hr1. subst h1.
  destruct (g1 t) as [t1|e1]; simpl.
  - destruct Hr1 as (r1 & -> & Hl1 & Hle1).
    run_bind E1.
    destruct (H2 _ _ _ Hl1) as (ext2 & Hh2 & Hr2).
    exists (ext1 ++ ext2). rewrite Hh2, app_assoc. split; [done|].
    destruct (g2 t1); [|done].
    destruct Hr2 as (r & ? & ? & Hle). exists r.
    rewrite length_app in Hle. repeat split; try done; lia.
  - subst o1. rewrite (bind_Raise _ _ _ _ _ E1). by exists ext1.
Qed.

Lemma runs_as_ext f f' g g' :
  (∀ df h, f df h = f' df h) → (∀ t, g t = g' t) → runs_as f g → runs_as f' g'.
Proof.
  intros Hf Hg H h df t E. rewrite <- Hf, <- Hg. by apply H.
Qed.

(** A copy made before the step and not used by it changes nothing of
    what the step returns. *)
Lemma runs_as_after_copy f g :
  runs_as f g → runs_as (λ df, _ ← copy df; f df) g.
Proof.
  intros H h df t E.
  run_bind (copy_run _ _ _ E).
  assert (E' : (h ++ [t]) !! df = Some t) by by apply lookup_app_l_Some.
  destruct (H _ _ _ E') as (ext & Hh & Hr).
  exists ([t] ++ ext). rewrite Hh, app_assoc. split; [done|].
  destruct (g t); [|done].
  destruct Hr as (r & ? & ? & Hle). exists r.
  rewrite length_app in Hle. repeat split; try done; lia.
Qed.

(** *** Columns of a table *)

Lemma lookup_column_None c t : lookup_column c t = None ↔ c ∉ labels t.
Proof.
  unfold labels. induction t as [|[l s] t IH]; simpl.
  - split; [intros _; apply not_elem_of_nil|done].
  - rewrite not_elem_of_cons. destruct (String.eqb_spec l c) as [->|Hne].
    + split; [done|]. by intros [? _].
    + rewrite IH. split; [intros ?; split; [congruence|done]|by intros [_ ?]].
Qed.

Lemma existsb_label c t :
  existsb (String.eqb c) (labels t) = bool_decide (is_Some (lookup_column c t)).
Proof.
  unfold labels. induction t as [|[l s] t IH]; simpl.
  - done.
  - rewrite (String.eqb_sym c l). by destruct (String.eqb l c).
Qed.

Lemma assign_column_present c s s0 t :
  lookup_column c t = Some s0 →
  assign_column c s t = (λ p, if String.eqb p.1 c then (p.1, s) else p) <$> t.
Proof.
  intros E. unfold assign_column. rewrite existsb_label, E.
  by rewrite bool_decide_eq_true_2.
Qed.

Lemma lookup_assign_column c s s0 t :
  lookup_column c t = Some s0 → lookup_column c (assign_column c s t) = Some s.
Proof.
  intros E. rewrite (assign_column_present _ _ _ _ E).
  induction t as [|[l s1] t IH]; [done|].
  rewrite fmap_cons. simpl in *. destruct (String.eqb l c) eqn:El; simpl.
  - by rewrite El.
  - rewrite El. by apply IH.
Qed.

Lemma lookup_assign_column_ne c c' s t :
  c' ≠ c → lookup_column c' (assign_column c s t) = lookup_column c' t.
Proof.
  intros Hne. unfold assign_column.
  destruct (existsb (String.eqb c) (labels t)).
  - induction t as [|[l s1] t IH]; [done|].
    rewrite fmap_cons. simpl. destruct (String.eqb_spec l c) as [->|Hlc]; simpl.
    + destruct (String.eqb_spec c c'); [congruence|done].
    + by rewrite IH.
  - induction t as [|[l s1] t IH]; simpl.
    + destruct (String.eqb_spec c c'); [congruence|done].
    + by rewrite IH.
Qed.

Lemma assign_assign_column c s s' s0 t :
  lookup_column c t = Some s0 →
  assign_column c s' (assign_column c s t) = assign_column c s' t.
Proof.
  intros E.
  rewrite (assign_column_present c s' s (assign_column c s t))
    by by eapply lookup_assign_column.
  rewrite !(assign_column_present _ _ _ _ E).
  rewrite <- list_fmap_compose. apply list_fmap_ext.
  intros _ [l s1] _. simpl. destruct (String.eqb l c) eqn:El; simpl; by rewrite El.
Qed.

Lemma labels_assign_column c s s0 t :
  lookup_column c t = Some s0 → labels (assign_column c s t) = labels t.
Proof.
  intros E. rewrite (assign_column_present _ _ _ _ E).
  unfold labels. rewrite <- list_fmap_compose. apply list_fmap_ext.
  intros _ [l s1] _. simpl. by destruct (String.eqb l c).
Qed.

(** *** The column cleaners *)

Lemma column_step_run k h df t column :
  h !! df = Some t →
  column_step k df column h =
    match column_table k column t with
    | Return t' => (Return (length h), h ++ [t'])
    | Raise e => (Raise e, h ++ [t])
    end.
Proof.
  intros E. unfold column_step, column_table.
  run_bind (copy_run _ _ _ E).
  unfold mbind at 1, Py_bind at 1.
  rewrite (getitem_run _ _ _ _ (lookup_snoc _ _)).
  destruct (lookup_column column t) as [s|]; [|done].
  unfold mbind at 1, Py_bind at 1, lift.
  destruct (k s) as [s'|e]; [|done]. simpl.
  unfold mbind, Py_bind.
  rewrite (setitem_run _ _ _ _ _ (lookup_snoc _ _)).
  by rewrite insert_snoc.
Qed.

(** A step that makes one copy and returns it *)
Lemma runs_as_of_run f g :
  (∀ (h : heap) (df : ref) (t : DataFrame),
     h !! df = Some t →
     ∃ t1, f df h = match g t with
                    | Return t' => (Return (length h), h ++ [t'])
                    | Raise e => (Raise e, h ++ [t1])
                    end) →
  runs_as f g.
Proof.
  intros H h df t E. destruct (H h df t E) as [t1 ->].
  destruct (g t) as [t'|e]; cbn [fst snd].
  - exists [t']. split; [done|]. exists (length h).
    by rewrite lookup_snoc.
  - by exists [t1].
Qed.

Lemma column_step_runs_as k column :
  runs_as (λ df, column_step k df column) (column_table k column).
Proof.
  apply runs_as_of_run. intros h df t E. exists t. by apply column_step_run.
Qed.

Lemma clean_gender_runs_as column :
  runs_as (λ df, clean_gender df column) (column_table (Series_apply gender_lambda) column).
Proof. apply column_step_runs_as. Qed.

Lemma clean_clv_runs_as column :
  runs_as (λ df, clean_clv df column) (column_table (Series_apply clv_lambda) column).
Proof. apply column_step_runs_as. Qed.

Lemma replace_runs_as d column :
  runs_as (λ df, column_step (λ s, Return (Series_replace d s)) df column)
          (column_table (λ s, Return (Series_replace d s)) column).
Proof. apply column_step_runs_as. Qed.

Lemma clean_state_runs_as column :
  runs_as (λ df, clean_state df column)
          (column_table (λ s, Return (Series_replace state_dict s)) column).
Proof. apply (replace_runs_as state_dict). Qed.

Lemma clean_education_runs_as column :
  runs_as (λ df, clean_education df column)
          (column_table (λ s, Return (Series_replace education_dict s)) column).
Proof. apply (replace_runs_as education_dict). Qed.

Lemma clean_car_class_runs_as column :
  runs_as (λ df, clean_car_class df column)
          (column_table (λ s, Return (Series_replace car_classes_dict s)) column).
Proof. apply (replace_runs_as car_classes_dict). Qed.

Lemma split_keep_middle_runs_as column :
  runs_as (λ df, split_keep_middle df column)
          (column_table (λ s, Series_str_get 1 <$> Series_str_split "/" s) column).
Proof.
  eapply runs_as_ext; [| |apply column_step_runs_as]; [|done].
  intros df h. unfold column_step, split_keep_middle.
  unfold mbind, Py_bind, lift. destruct (copy df h) as [[r|e] h1]; [|done].
  destruct (getitem r column h1) as [[s|e] h2]; [|done].
  by destruct (Series_str_split "/" s).
Qed.

(** *** The other steps *)

Lemma clean_col_name_runs_as :
  runs_as clean_col_name (λ t, Return (Table.clean_col_name t)).
Proof.
  intros h df t E. unfold clean_col_name.
  run_bind (copy_run _ _ _ E).
  run_bind (get_columns_run _ _ _ (lookup_snoc _ _)).
  run_bind (set_columns_run _ _ _ _ (lookup_snoc _ _)).
  rewrite insert_snoc.
  run_bind (get_columns_run _ _ _ (lookup_snoc _ _)).
  run_bind (set_columns_run _ _ _ _ (lookup_snoc _ _)).
  rewrite insert_snoc.
  run_bind (rename_run _ _ _ _ (lookup_snoc _ _)).
  unfold mret, Py_ret. cbn [fst snd].
  eexists [_; _]. split; [by rewrite <- app_assoc|].
  eexists. split; [done|]. split.
  - change [?a; ?b] with ([a] ++ [b]). rewrite app_assoc. apply lookup_snoc.
  - rewrite length_app. lia.
Qed.

Lemma drop_null_rows_runs_as :
  runs_as drop_null_rows (λ t, Return (dropna_all t)).
Proof.
  intros h df t E. unfold drop_null_rows.
  run_bind (copy_run _ _ _ E).
  run_bind (dropna_run _ _ _ (lookup_snoc _ _)).
  unfold mret, Py_ret. cbn [fst snd].
  eexists [_; _]. split; [by rewrite <- app_assoc|].
  eexists. split; [done|]. split.
  - change [?a; ?b] with ([a] ++ [b]). rewrite app_assoc. apply lookup_snoc.
  - rewrite length_app. lia.
Qed.

Lemma fill_with_mean_run py_float h df t column :
  h !! df = Some t →
  ∃ t1,
    fill_with_mean py_float df column h =
      match Table.fill_with_mean py_float column t with
      | Return t' => (Return (length h), h ++ [t'])
      | Raise e => (Raise e, h ++ [t1])
      end.
Proof.
  intros E. unfold fill_with_mean, Table.fill_with_mean, column_table.
  run_bind (copy_run _ _ _ E).
  unfold mbind at 1, Py_bind at 1.
  rewrite (getitem_run _ _ _ _ (lookup_snoc _ _)).
  destruct (lookup_column column t) as [s|] eqn:Es; [|by exists t].
  unfold mbind at 1, Py_bind at 1, lift.
  destruct (Series_astype_float py_float s) as [s'|e]; [|by exists t].
  run_bind (setitem_run _ _ _ _ _ (lookup_snoc _ _)).
  rewrite insert_snoc.
  pose proof (lookup_assign_column column s' s t Es) as Es'.
  unfold mbind at 1, Py_bind at 1.
  rewrite (getitem_run _ _ _ _ (lookup_snoc _ _)), Es'.
  unfold mbind at 1, Py_bind at 1.
  rewrite (getitem_run _ _ _ _ (lookup_snoc _ _)), Es'.
  unfold mbind at 1, Py_bind at 1.
  exists (assign_column column s' t). cbn [mbind outcome_bind].
  destruct (Series_mean s') as [m|e]; [|done].
  unfold loc_setitem.
  run_bind (setitem_run _ _ _ _ _ (lookup_snoc _ _)).
  rewrite insert_snoc. by rewrite (assign_assign_column _ _ _ _ _ Es).
Qed.

Lemma fill_with_mean_runs_as py_float column :
  runs_as (λ df, fill_with_mean py_float df column) (Table.fill_with_mean py_float column).
Proof.
  apply runs_as_of_run. intros h df t E. by apply fill_with_mean_run.
Qed.

Lemma getitems_run h df t cs :
  h !! df = Some t → getitems df cs h = (Table.lookup_columns cs t, h).
Proof.
  intros E. induction cs as [|c cs IH]; [done|].
  cbn [getitems Table.lookup_columns].
  unfold mbind at 1, Py_bind at 1. rewrite (getitem_run _ _ _ _ E).
  destruct (lookup_column c t) as [s|]; [|done].
  unfold mbind at 1, Py_bind at 1. rewrite IH.
  by destruct (Table.lookup_columns cs t).
Qed.

Lemma setitems_run h df t cs ss :
  h !! df = Some t →
  setitems df cs ss h = (Return (), <[df := Table.assign_columns cs ss t]> h).
Proof.
  revert h t ss. induction cs as [|c cs IH]; intros h t ss E.
  - cbn. by rewrite list_insert_id.
  - destruct ss as [|s ss]; [cbn; by rewrite list_insert_id|].
    cbn [setitems Table.assign_columns].
    run_bind (setitem_run _ _ _ _ _ E).
    rewrite (IH _ (assign_column c s t)).
    + by rewrite list_insert_insert_eq.
    + apply list_lookup_insert_eq. by eapply lookup_lt_Some.
Qed.

Lemma num_to_int_run py_int h df t :
  h !! df = Some t →
  num_to_int py_int df h =
    match Table.num_to_int py_int t with
    | Return t' => (Return (length h), h ++ [t'])
    | Raise e => (Raise e, h ++ [t])
    end.
Proof.
  intros E. unfold num_to_int, Table.num_to_int.
  run_bind (copy_run _ _ _ E).
  unfold mbind at 1, Py_bind at 1.
  rewrite (getitems_run _ _ _ _ (lookup_snoc _ _)).
  destruct (Table.lookup_columns num_var t) as [ss|e]; [|done].
  unfold mbind at 1, Py_bind at 1, lift. cbn [mbind outcome_bind].
  destruct (astype_int_each py_int ss) as [ss'|e]; [|done].
  run_bind (setitems_run _ _ _ _ _ (lookup_snoc _ _)).
  by rewrite insert_snoc.
Qed.

Lemma num_to_int_runs_as py_int :
  runs_as (num_to_int py_int) (Table.num_to_int py_int).
Proof.
  apply runs_as_of_run. intros h df t E. exists t. by apply num_to_int_run.
Qed.

Lemma runs_as_ret f g : runs_as f g → runs_as (λ df, r ← f df; mret r) g.
Proof.
  apply runs_as_ext; [|done]. intros df h.
  unfold mbind, Py_bind. by destruct (f df h) as [[r|e] h'].
Qed.

Lemma clean_dataframe_runs_as py_float {A} (column : A) :
  runs_as (λ df, clean_dataframe py_float df column) (clean_dataframe_table py_float).
Proof.
  unfold clean_dataframe, clean_dataframe_table.
  apply (runs_as_after_copy
           (λ df, df2 ← clean_col_name df; _)).
  apply (runs_as_bind _ _ _ _ clean_col_name_runs_as).
  apply (runs_as_bind _ _ _ _ drop_null_rows_runs_as).
  apply (runs_as_bind _ _ _ _ (clean_gender_runs_as _)).
  apply (runs_as_bind _ _ _ _ (clean_state_runs_as _)).
  apply (runs_as_bind _ _ _ _ (clean_education_runs_as _)).
  apply (runs_as_bind _ _ _ _ (clean_clv_runs_as _)).
  apply (runs_as_bind _ _ _ _ (split_keep_middle_runs_as _)).
  apply runs_as_ret, fill_with_mean_runs_as.
Qed.

(** ** Lemmas on columns of cells *)

Lemma Series_apply_cons f x s :
  Series_apply f (x :: s) = (y ← f x; ys ← Series_apply f s; mret (y :: ys)).
Proof. done. Qed.

(** Where [f] raises on no cell, [apply] is a map. *)
Lemma Series_apply_fmap f g s :
  Forall (λ x, f x = Return (g x)) s → Series_apply f s = Return (g <$> s).
Proof.
  induction 1 as [|x s Hx _ IH]; [done|].
  by rewrite Series_apply_cons, Hx, IH.
Qed.

Lemma Series_apply_Return f s s' :
  Series_apply f s = Return s' → Forall2 (λ x y, f x = Return y) s s'.
Proof.
  revert s'. induction s as [|x s IH]; intros s' E.
  - injection E as <-. constructor.
  - rewrite Series_apply_cons in E.
    destruct (f x) as [y|] eqn:Ex; [|done]. cbn in E.
    destruct (Series_apply f s) as [ys|]; [|done]. cbn in E.
    injection E as <-. constructor; [done|by apply IH].
Qed.

(** *** The gender policy *)

Lemma str_in_MF c :
  str_in c ["M"; "F"] = true → c = "M" ∨ c = "F".
Proof.
  unfold str_in. cbn [existsb]. rewrite !orb_true_iff, !String.eqb_eq.
  intros [?|[?|?]]; [by left|by right|done].
Qed.

(** What the policy makes of a cell is ["M"], ["F"] or ["D"]. *)
Lemma gender_lambda_domain x y :
  gender_lambda x = Return y → y = Str "M" ∨ y = Str "F" ∨ y = Str "D".
Proof.
  destruct x as [|[|c v]|n|[|q]]; try done; try (intros [= <-]; by auto).
  change (gender_lambda (Str (String c v)))
    with (if str_in (upper (String c EmptyString)) ["M"; "F"]
          then Return (Str (upper (String c EmptyString)))
          else Return (Str "D")).
  destruct (str_in (upper (String c EmptyString)) ["M"; "F"]) eqn:E.
  - intros [= <-]. apply str_in_MF in E as [->| ->]; auto.
  - intros [= <-]. auto.
Qed.

Lemma gender_lambda_fixed y :
  y = Str "M" ∨ y = Str "F" ∨ y = Str "D" → gender_lambda y = Return y.
Proof. by intros [->|[->| ->]]. Qed.

Lemma Series_apply_gender_idem s s' :
  Series_apply gender_lambda s = Return s' →
  Series_apply gender_lambda s' = Return s'.
Proof.
  intros E%Series_apply_Return.
  rewrite (Series_apply_fmap _ id), list_fmap_id; [done|].
  induction E as [|x y s s' Hxy _ IH]; constructor; [|done].
  by eapply gender_lambda_fixed, gender_lambda_domain.
Qed.

(** *** Replacing by a dict *)

Lemma replace_value_other d x :
  (∀ k, x = Str k → d !! k = None) → replace_value d x = x.
Proof.
  destruct x as [|k|n|f]; try done. intros H. cbn. by rewrite (H k).
Qed.

Lemma replace_value_idem d x :
  closed_dict d → replace_value d (replace_value d x) = replace_value d x.
Proof.
  intros Hd. destruct x as [|k|n|f]; try done. cbn.
  destruct (d !! k) as [v|] eqn:E; cbn.
  - by rewrite (Hd k v E).
  - by rewrite E.
Qed.

Lemma Series_replace_idem d s :
  closed_dict d → Series_replace d (Series_replace d s) = Series_replace d s.
Proof.
  intros Hd. unfold Series_replace. rewrite <- list_fmap_compose.
  apply list_fmap_ext. intros _ x _. by apply replace_value_idem.
Qed.

Lemma state_dict_closed : closed_dict state_dict.
Proof.
  unfold closed_dict, state_dict.
  repeat (apply map_Forall_insert_2; [done|]). apply map_Forall_empty.
Qed.

Lemma education_dict_closed : closed_dict education_dict.
Proof.
  unfold closed_dict, education_dict.
  repeat (apply map_Forall_insert_2; [done|]). apply map_Forall_empty.
Qed.

Lemma car_classes_dict_closed : closed_dict car_classes_dict.
Proof.
  unfold closed_dict, car_classes_dict.
  repeat (apply map_Forall_insert_2; [done|]). apply map_Forall_empty.
Qed.

(** ** The steps, called on a table *)

Lemma clean_col_name_call t :
  call clean_col_name t = Return (Table.clean_col_name t).
Proof. exact (runs_as_call _ _ t clean_col_name_runs_as). Qed.

Lemma drop_null_rows_call t :
  call drop_null_rows t = Return (dropna_all t).
Proof. exact (runs_as_call _ _ t drop_null_rows_runs_as). Qed.

Lemma clean_gender_call column t :
  call (λ df, clean_gender df column) t =
  column_table (Series_apply gender_lambda) column t.
Proof. exact (runs_as_call _ _ t (clean_gender_runs_as column)). Qed.

Lemma clean_state_call column t :
  call (λ df, clean_state df column) t =
  column_table (λ s, Return (Series_replace state_dict s)) column t.
Proof. exact (runs_as_call _ _ t (clean_state_runs_as column)). Qed.

Lemma clean_education_call column t :
  call (λ df, clean_education df column) t =
  column_table (λ s, Return (Series_replace education_dict s)) column t.
Proof. exact (runs_as_call _ _ t (clean_education_runs_as column)). Qed.

Lemma clean_car_class_call column t :
  call (λ df, clean_car_class df column) t =
  column_table (λ s, Return (Series_replace car_classes_dict s)) column t.
Proof. exact (runs_as_call _ _ t (clean_car_class_runs_as column)). Qed.

Lemma clean_clv_call column t :
  call (λ df, clean_clv df column) t =
  column_table (Series_apply clv_lambda) column t.
Proof. exact (runs_as_call _ _ t (clean_clv_runs_as column)). Qed.

Lemma split_keep_middle_call column t :
  call (λ df, split_keep_middle df column) t =
  column_table (λ s, Series_str_get 1 <$> Series_str_split "/" s) column t.
Proof. exact (runs_as_call _ _ t (split_keep_middle_runs_as column)). Qed.

Lemma fill_with_mean_call py_float column t :
  call (λ df, fill_with_mean py_float df column) t =
  Table.fill_with_mean py_float column t.
Proof. exact (runs_as_call _ _ t (fill_with_mean_runs_as py_float column)). Qed.

Lemma clean_dataframe_call py_float {A} (column : A) t :
  call (λ df, clean_dataframe py_float df column) t =
  clean_dataframe_table py_float t.
Proof. exact (runs_as_call _ _ t (clean_dataframe_runs_as py_float column)). Qed.

Lemma column_table_missing k column t :
  column ∉ labels t → column_table k column t = Raise KeyError.
Proof. intros H%lookup_column_None. unfold column_table. by rewrite H. Qed.

(** * Examples *)

Example clean_col_name_example :
  call clean_col_name [("ST", [Str "AZ"]); ("Customer Id", [Int 7]); ("st", [PyNone])]
  = Return [("state", [Str "AZ"]); ("customer_id", [Int 7]); ("state", [PyNone])].
Proof. reflexivity. Qed.

Example clean_gender_example :
  call (λ df, clean_gender df "gender")
       [("gender", [Str "female"; Str "Male"; Str "M"; Str "other"; PyNone; Float nan])]
  = Return [("gender", [Str "F"; Str "M"; Str "M"; Str "D"; Str "D"; Str "D"])].
Proof. reflexivity. Qed.

Example clean_gender_number_example :
  call (λ df, clean_gender df "gender") [("gender", [Str "F"; Int 1])]
  = Raise TypeError.
Proof. reflexivity. Qed.

Example fill_with_mean_text_example :
  call (λ df, fill_with_mean decimal_float df "customer_lifetime_value")
       [("customer_lifetime_value", [Str "15.5%"; PyNone])]
  = Raise ValueError.
Proof. reflexivity. Qed.

(** The runner on the raw table: the empty row is gone, the vehicle
    classes are as they were, the lifetime values are floats. *)
Example clean_dataframe_example :
  call (λ df, clean_dataframe decimal_float df ()) raw_example
  = Return
      [("customer", [Str "A1"; Str "B2"; Str "C3"]);
       ("state", [Str "Arizona"; Str "California"; Str "Oregon"]);
       ("gender", [Str "F"; Str "D"; Str "M"]);
       ("education", [Str "Bachelor"; Str "Master"; PyNone]);
       ("customer_lifetime_value",
        [Float (fin 15.5); Float (mean_of [15.5; 4.5]%Q); Float (fin 4.5)]);
       ("vehicle_class", [Str "Sports Car"; Str "SUV"; Str "Luxury Car"]);
       ("number_of_open_complaints", [Str "5"; Str "0"; Float nan])].
Proof. reflexivity. Qed.

(** * The properties *)

(** ** Gender Cleaner *)

(** C1.  The specification has [clean_gender] give ["D"] for every cell that
    does not start with an M or an F, the empty text included.  The
    code reads [x[0]] of every non-null cell: on a gender column that
    holds an empty text, [clean_gender] raises [IndexError] and returns
    no table. *)
Theorem clean_gender_empty_text_raises :
  call (λ df, clean_gender df Default.clean_gender)
       [("gender", [Str "F"; Str ""; Str "male"])]
  = Raise IndexError.
Proof. reflexivity. Qed.

(** On the cells the code does handle (nulls and texts of a character
    or more) the policy is the one of the docstring. *)
Lemma gender_lambda_text c v :
  gender_lambda (Str (String c v)) =
  Return (if str_in (upper (String c EmptyString)) ["M"; "F"]
          then Str (upper (String c EmptyString))
          else Str "D").
Proof.
  change (gender_lambda (Str (String c v)))
    with (if str_in (upper (String c EmptyString)) ["M"; "F"]
          then Return (Str (upper (String c EmptyString)))
          else Return (Str "D")).
  by destruct (str_in _ _).
Qed.

Lemma gender_lambda_null x : isnull x = true → gender_lambda x = Return (Str "D").
Proof. unfold gender_lambda, notnull. by intros ->. Qed.

(** ** Missing columns *)

(** C8.  A column cleaner given a column name the table does not have
    raises [KeyError], pandas' column-not-found error, and returns no
    table: so do the Gender, State, Education, Vehicle Class and
    Lifetime Value cleaners, the Complaints Splitter and the Mean
    Imputer. *)
Theorem missing_column_KeyError (py_float : string → option pyfloat)
    (column : string) (t : DataFrame) :
  column ∉ labels t →
  call (λ df, clean_gender df column) t = Raise KeyError ∧
  call (λ df, clean_state df column) t = Raise KeyError ∧
  call (λ df, clean_education df column) t = Raise KeyError ∧
  call (λ df, clean_car_class df column) t = Raise KeyError ∧
  call (λ df, clean_clv df column) t = Raise KeyError ∧
  call (λ df, split_keep_middle df column) t = Raise KeyError ∧
  call (λ df, fill_with_mean py_float df column) t = Raise KeyError.
Proof.
  intros H.
  rewrite clean_gender_call, clean_state_call, clean_education_call,
    clean_car_class_call, clean_clv_call, split_keep_middle_call,
    fill_with_mean_call.
  unfold Table.fill_with_mean. by rewrite !column_table_missing.
Qed.

Lemma missing_column_KeyError_witness :
  call (λ df, clean_gender df "gender") [("Gender", [Str "F"])] = Raise KeyError ∧
  call (λ df, clean_state df "gender") [("Gender", [Str "F"])] = Raise KeyError ∧
  call (λ df, clean_education df "gender") [("Gender", [Str "F"])] = Raise KeyError ∧
  call (λ df, clean_car_class df "gender") [("Gender", [Str "F"])] = Raise KeyError ∧
  call (λ df, clean_clv df "gender") [("Gender", [Str "F"])] = Raise KeyError ∧
  call (λ df, split_keep_middle df "gender") [("Gender", [Str "F"])] = Raise KeyError ∧
  call (λ df, fill_with_mean decimal_float df "gender") [("Gender", [Str "F"])]
    = Raise KeyError.
Proof.
  apply (missing_column_KeyError decimal_float "gender" [("Gender", [Str "F"])]).
  by apply lookup_column_None.
Defined.

(** ** The runner *)

(** C4.  The table [clean_dataframe] returns is the one obtained by
    calling, each on the table the one before returned, the Column Name
    Normalizer, the Null-Row Dropper, the Gender, State, Education and
    Lifetime Value cleaners, the Complaints Splitter and the Mean
    Imputer, with their default columns; an exception of a step is the
    runner's.  The Vehicle Class Cleaner and the Numeric Coercion are
    not among them. *)
Theorem clean_dataframe_composition (py_float : string → option pyfloat)
    {A : Type} (column : A) (t : DataFrame) :
  call (λ df, clean_dataframe py_float df column) t =
    (t1 ← call clean_col_name t;
     t2 ← call drop_null_rows t1;
     t3 ← call (λ df, clean_gender df "gender") t2;
     t4 ← call (λ df, clean_state df "state") t3;
     t5 ← call (λ df, clean_education df "education") t4;
     t6 ← call (λ df, clean_clv df "customer_lifetime_value") t5;
     t7 ← call (λ df, split_keep_middle df "number_of_open_complaints") t6;
     call (λ df, fill_with_mean py_float df "customer_lifetime_value") t7).
Proof.
  rewrite clean_dataframe_call. unfold clean_dataframe_table.
  unfold Default.clean_gender, Default.clean_state, Default.clean_education,
    Default.clean_clv, Default.split_keep_middle, Default.fill_with_mean.
  rewrite clean_col_name_call. cbn [mbind outcome_bind].
  rewrite drop_null_rows_call. cbn [mbind outcome_bind].
  rewrite clean_gender_call.
  destruct (column_table _ _ _) as [t3|]; [|done].
  cbn [mbind outcome_bind]. rewrite clean_state_call.
  destruct (column_table _ _ _) as [t4|]; [|done].
  cbn [mbind outcome_bind]. rewrite clean_education_call.
  destruct (column_table _ _ _) as [t5|]; [|done].
  cbn [mbind outcome_bind]. rewrite clean_clv_call.
  destruct (column_table _ _ _) as [t6|]; [|done].
  cbn [mbind outcome_bind]. rewrite split_keep_middle_call.
  destruct (column_table _ _ _) as [t7|]; [|done].
  cbn [mbind outcome_bind]. by rewrite fill_with_mean_call.
Qed.

(** C10.  The runner does not read its second parameter: whatever is
    passed as [column], of whatever type, [clean_dataframe] is the same
    computation, so on every store and table it returns the same
    outcome and leaves the same store. *)
Theorem clean_dataframe_ignores_column (py_float : string → option pyfloat)
    {A B : Type} (c1 : A) (c2 : B) (df : ref) (h : heap) :
  clean_dataframe py_float df c1 h = clean_dataframe py_float df c2 h.
Proof. reflexivity. Qed.

(** ** Mapping cleaners and idempotence *)

Lemma column_table_idem k column t :
  (∀ s s', k s = Return s' → k s' = Return s') →
  (t' ← column_table k column t; column_table k column t') = column_table k column t.
Proof.
  intros Hk. unfold column_table.
  destruct (lookup_column column t) as [s|] eqn:E; [|done].
  destruct (k s) as [s'|e] eqn:Es; [|done]. cbn.
  rewrite (lookup_assign_column _ _ _ _ E), (Hk _ _ Es). cbn.
  by rewrite (assign_assign_column _ _ _ _ _ E).
Qed.

Lemma replace_table_idem d column t :
  closed_dict d →
  let g := column_table (λ s, Return (Series_replace d s)) column in
  (t' ← g t; g t') = g t.
Proof.
  intros Hd g. apply column_table_idem.
  intros s s' [= <-]. by rewrite Series_replace_idem.
Qed.

Lemma replace_table_unmapped (d : gmap string string) (keys : list string)
    (column : string) (t : DataFrame) (s : Series) :
  (∀ k, k ∉ keys → d !! k = None) →
  lookup_column column t = Some s →
  ∃ s' : Series,
    column_table (λ s, Return (Series_replace d s)) column t
      = Return (assign_column column s' t) ∧
    length s' = length s ∧
    ∀ (i : nat) (x : value),
      s !! i = Some x → (∀ k, k ∈ keys → x ≠ Str k) → s' !! i = Some x.
Proof.
  intros Hd E. exists (Series_replace d s). unfold column_table. rewrite E.
  split; [done|]. unfold Series_replace. split; [by rewrite length_fmap|].
  intros i x Hi Hx. rewrite list_lookup_fmap, Hi. cbn. f_equal.
  apply replace_value_other. intros k ->. apply Hd. intros Hk.
  by apply (Hx k).
Qed.

Lemma state_dict_keys k : k ∉ ["AZ"; "Cali"; "WA"] → state_dict !! k = None.
Proof.
  rewrite !not_elem_of_cons. intros (? & ? & ? & _). unfold state_dict.
  by rewrite !lookup_insert_ne, lookup_singleton_ne.
Qed.

Lemma education_dict_keys k : k ∉ ["Bachelors"] → education_dict !! k = None.
Proof.
  rewrite !not_elem_of_cons. intros (? & _). unfold education_dict.
  by rewrite lookup_singleton_ne.
Qed.

Lemma car_classes_dict_keys k :
  k ∉ ["Sports Car"; "Luxury SUV"; "Luxury Car"] → car_classes_dict !! k = None.
Proof.
  rewrite !not_elem_of_cons. intros (? & ? & ? & _). unfold car_classes_dict.
  by rewrite !lookup_insert_ne, lookup_singleton_ne.
Qed.

(** C6.  The State, Education and Vehicle Class cleaners keep every
    cell that is not a key of their mapping (AZ, Cali, WA; Bachelors;
    Sports Car, Luxury SUV, Luxury Car), nulls included, and they and
    the Gender cleaner are idempotent: cleaning the cleaned table gives
    the cleaned table. *)
Theorem cleaners_idempotent_identity_off_keys :
  keeps_unmapped clean_state ["AZ"; "Cali"; "WA"] ∧
  keeps_unmapped clean_education ["Bachelors"] ∧
  keeps_unmapped clean_car_class ["Sports Car"; "Luxury SUV"; "Luxury Car"] ∧
  idempotent_cleaner clean_state ∧
  idempotent_cleaner clean_education ∧
  idempotent_cleaner clean_car_class ∧
  idempotent_cleaner clean_gender.
Proof.
  repeat split.
  - intros column t s E. rewrite clean_state_call.
    by apply replace_table_unmapped, E; apply state_dict_keys.
  - intros column t s E. rewrite clean_education_call.
    by apply replace_table_unmapped, E; apply education_dict_keys.
  - intros column t s E. rewrite clean_car_class_call.
    by apply replace_table_unmapped, E; apply car_classes_dict_keys.
  - intros column t. rewrite clean_state_call.
    rewrite <- (replace_table_idem state_dict column t state_dict_closed) at 2.
    destruct (column_table _ column t); [|done]. cbn. apply clean_state_call.
  - intros column t. rewrite clean_education_call.
    rewrite <- (replace_table_idem education_dict column t education_dict_closed) at 2.
    destruct (column_table _ column t); [|done]. cbn. apply clean_education_call.
  - intros column t. rewrite clean_car_class_call.
    rewrite <- (replace_table_idem car_classes_dict column t car_classes_dict_closed) at 2.
    destruct (column_table _ column t); [|done]. cbn. apply clean_car_class_call.
  - intros column t. rewrite clean_gender_call.
    rewrite <- (column_table_idem (Series_apply gender_lambda) column t
                  Series_apply_gender_idem) at 2.
    destruct (column_table _ column t); [|done]. cbn. apply clean_gender_call.
Qed.

Lemma cleaners_idempotent_identity_off_keys_witness :
  (∃ s' : Series,
     call (λ df, clean_state df "state") gender_example
       = Return (assign_column "state" s' gender_example) ∧
     length s' = 3%nat ∧
     ∀ (i : nat) (x : value),
       [Str "AZ"; Str "Oregon"; PyNone] !! i = Some x →
       (∀ k, k ∈ ["AZ"; "Cali"; "WA"] → x ≠ Str k) → s' !! i = Some x) ∧
  (t' ← call (λ df, clean_gender df "gender") gender_example;
   call (λ df, clean_gender df "gender") t')
  = call (λ df, clean_gender df "gender") gender_example.
Proof.
  destruct cleaners_idempotent_identity_off_keys as (Hs & _ & _ & _ & _ & _ & Hg).
  split.
  - apply (Hs "state" _ [Str "AZ"; Str "Oregon"; PyNone]). reflexivity.
  - apply (Hg "gender").
Defined.

(** ** Lifetime Value Cleaner *)


Lemma clv_lambda_text_or_null x :
  isnull x = true ∨ is_str x = true → clv_lambda x = Return (strip_percent x).
Proof. intros [H|H]; by destruct x as [|v|n|[|q]]. Qed.



(** ** Complaints Splitter *)






(** ** Mean Imputer *)

Section MeanImputer.

Variable py_float : string → option pyfloat.

Lemma to_float_null x : isnull x = true → to_float py_float x = Return (Float nan).
Proof. by destruct x as [|v|n|[|q]]. Qed.

Lemma to_float_readable x :
  readable py_float x → to_float py_float x = Return (as_float py_float x).
Proof.
  unfold as_float. intros [H|[q H]].
  - by rewrite (to_float_null _ H).
  - by rewrite H.
Qed.

Lemma astype_float_readable s :
  Forall (readable py_float) s →
  Series_astype_float py_float s = Return (as_float py_float <$> s).
Proof.
  intros H. apply Series_apply_fmap.
  eapply Forall_impl; [exact H|]. apply to_float_readable.
Qed.

Lemma as_float_null x : isnull x = true → as_float py_float x = Float nan.
Proof. intros H. unfold as_float. by rewrite (to_float_null _ H). Qed.

Lemma as_float_number x :
  readable py_float x → isnull x = false →
  ∃ q, to_float py_float x = Return (Float (fin q)) ∧ as_float py_float x = Float (fin q).
Proof.
  intros [H|[q H]] Hx; [congruence|].
  exists q. unfold as_float. by rewrite H.
Qed.

Lemma numbers_astype_float s :
  Forall (readable py_float) s →
  Series_numbers (as_float py_float <$> s) = Return (numbers_read py_float s).
Proof.
  unfold numbers_read. induction 1 as [|x s Hx _ IH]; [done|].
  rewrite fmap_cons. cbn [omap list_omap]. destruct (isnull x) eqn:Hn.
  - rewrite (as_float_null _ Hn). exact IH.
  - destruct (as_float_number _ Hx Hn) as (q & Hq & ->).
    rewrite Hq. cbn [Series_numbers]. by rewrite IH.
Qed.



(** C3, amended.  On a table whose target column holds nulls only (or
    no cell at all) [fill_with_mean] raises nothing: the mean is NaN,
    and the table returned has NaN in every cell of that column. *)
Theorem fill_with_mean_all_null (column : string) (t : DataFrame) (s : Series) :
  lookup_column column t = Some s →
  Forall (λ x, isnull x = true) s →
  call (λ df, fill_with_mean py_float df column) t
    = Return (assign_column column (replicate (length s) (Float nan)) t).
Proof.
  intros E Hs.
  assert (Hr : Forall (readable py_float) s) by (eapply Forall_impl; [exact Hs|]; by left).
  assert (Hn : numbers_read py_float s = []).
  { unfold numbers_read. clear E Hr. induction Hs as [|x s Hx _ IH]; [done|].
    cbn [omap list_omap]. by rewrite Hx. }
  rewrite fill_with_mean_call. unfold Table.fill_with_mean, column_table.
  rewrite E, (astype_float_readable s Hr). cbn [mbind outcome_bind].
  unfold Series_mean. rewrite (numbers_astype_float s Hr), Hn.
  cbn [fmap outcome_fmap mean_of mbind outcome_bind mret outcome_ret].
  do 2 f_equal.
  unfold Series_fillna. rewrite <- list_fmap_compose.
  clear E Hr Hn. induction Hs as [|x s Hx _ IH]; [done|].
  rewrite fmap_cons. cbn [length replicate]. rewrite <- IH. cbn.
  by rewrite (as_float_null _ Hx).
Qed.

End MeanImputer.


(** C3 does not hold as stated: on a column of nulls the call
    raises no error and returns a table whose target column holds NaN
    in every cell. *)
Lemma fill_with_mean_all_null_returns :
  call (λ df, fill_with_mean decimal_float df Default.fill_with_mean)
       [("customer", [Str "A"; Str "B"]);
        ("customer_lifetime_value", [PyNone; Float nan])]
    = Return [("customer", [Str "A"; Str "B"]);
              ("customer_lifetime_value", [Float nan; Float nan])] ∧
  ¬ ∃ e, call (λ df, fill_with_mean decimal_float df Default.fill_with_mean)
              [("customer", [Str "A"; Str "B"]);
               ("customer_lifetime_value", [PyNone; Float nan])]
         = Raise e.
Proof. split; [reflexivity|]. by intros [e ?]. Qed.

Lemma fill_with_mean_all_null_witness :
  call (λ df, fill_with_mean decimal_float df "customer_lifetime_value") null_example
  = Return (assign_column "customer_lifetime_value" (replicate 2 (Float nan)) null_example).
Proof.
  apply (fill_with_mean_all_null decimal_float "customer_lifetime_value" null_example
           [PyNone; Float nan]).
  - reflexivity.
  - constructor; [reflexivity|]. constructor; [reflexivity|]. constructor.
Defined.

(** ** Purity and frame *)

Lemma runs_as_pure f g : runs_as f g → pure_step f.
Proof.
  intros H h df t E. destruct (H h df t E) as (ext & -> & Hr). split.
  - intros l t0 Hl. by apply lookup_app_l_Some.
  - intros r Er. destruct (g t) as [t'|e].
    + destruct Hr as (r' & Er' & Hl & Hle). rewrite Er in Er'.
      injection Er' as <-. split; [done|]. by exists t'.
    + by rewrite Er in Hr.
Qed.

Lemma column_table_frame k column t t' :
  column_table k column t = Return t' →
  labels t' = labels t ∧
  ∀ (i : nat) (l : string) (s : Series),
    t !! i = Some (l, s) → l ≠ column → t' !! i = Some (l, s).
Proof.
  unfold column_table. destruct (lookup_column column t) as [s0|] eqn:E; [|done].
  destruct (k s0) as [s'|]; [|done]. intros [= <-].
  split; [by eapply labels_assign_column|].
  intros i l s Hi Hl. rewrite (assign_column_present _ _ _ _ E).
  rewrite list_lookup_fmap, Hi. cbn.
  by destruct (String.eqb_spec l column).
Qed.

(** C9.  Every step is pure: the functions of the module, the runner
    among them, change no object of the caller's store and return a
    reference to a new object.  Every column cleaner keeps the frame:
    the returned table has the same labels in the same order, and the
    columns other than the target hold the cells they held. *)
Theorem steps_pure_and_frame
    (py_float : string → option pyfloat) (py_int : string → option Z) :
  (pure_step clean_col_name ∧
   pure_step drop_null_rows ∧
   pure_step (num_to_int py_int) ∧
   (∀ (A : Type) (column : A), pure_step (λ df, clean_dataframe py_float df column)) ∧
   ∀ column : string,
     pure_step (λ df, clean_gender df column) ∧
     pure_step (λ df, clean_state df column) ∧
     pure_step (λ df, clean_education df column) ∧
     pure_step (λ df, clean_car_class df column) ∧
     pure_step (λ df, clean_clv df column) ∧
     pure_step (λ df, split_keep_middle df column) ∧
     pure_step (λ df, fill_with_mean py_float df column)) ∧
  (keeps_frame clean_gender ∧
   keeps_frame clean_state ∧
   keeps_frame clean_education ∧
   keeps_frame clean_car_class ∧
   keeps_frame clean_clv ∧
   keeps_frame split_keep_middle ∧
   keeps_frame (fill_with_mean py_float)).
Proof.
  split.
  - split; [exact (runs_as_pure _ _ clean_col_name_runs_as)|].
    split; [exact (runs_as_pure _ _ drop_null_rows_runs_as)|].
    split; [exact (runs_as_pure _ _ (num_to_int_runs_as py_int))|].
    split; [intros A column;
            exact (runs_as_pure _ _ (clean_dataframe_runs_as py_float column))|].
    intros column.
    split; [exact (runs_as_pure _ _ (clean_gender_runs_as column))|].
    split; [exact (runs_as_pure _ _ (clean_state_runs_as column))|].
    split; [exact (runs_as_pure _ _ (clean_education_runs_as column))|].
    split; [exact (runs_as_pure _ _ (clean_car_class_runs_as column))|].
    split; [exact (runs_as_pure _ _ (clean_clv_runs_as column))|].
    split; [exact (runs_as_pure _ _ (split_keep_middle_runs_as column))|].
    exact (runs_as_pure _ _ (fill_with_mean_runs_as py_float column)).
  - repeat apply conj; intros column t t'.
    + rewrite clean_gender_call. apply column_table_frame.
    + rewrite clean_state_call. apply column_table_frame.
    + rewrite clean_education_call. apply column_table_frame.
    + rewrite clean_car_class_call. apply column_table_frame.
    + rewrite clean_clv_call. apply column_table_frame.
    + rewrite split_keep_middle_call. apply column_table_frame.
    + rewrite fill_with_mean_call. apply column_table_frame.
Qed.

Lemma steps_pure_and_frame_witness :
  ((∀ (l : ref) (t0 : DataFrame),
      [state_example] !! l = Some t0 →
      (clean_state 0 "state" [state_example]).2 !! l = Some t0) ∧
   (∀ r : ref,
      (clean_state 0 "state" [state_example]).1 = Return r →
      (length [state_example] ≤ r)%nat ∧
      is_Some ((clean_state 0 "state" [state_example]).2 !! r))) ∧
  (∀ t' : DataFrame,
     call (λ df, clean_state df "state") state_example = Return t' →
     labels t' = labels state_example ∧
     ∀ (i : nat) (l : string) (s : Series),
       state_example !! i = Some (l, s) → l ≠ "state" → t' !! i = Some (l, s)).
Proof.
  destruct (steps_pure_and_frame decimal_float decimal_int)
    as [(_ & _ & _ & _ & Hp) (_ & Hf & _)].
  destruct (Hp "state") as (_ & Hs & _).
  split.
  - apply (Hs [state_example] 0%nat state_example). reflexivity.
  - intros t'. apply Hf.
Defined.

(** * Further properties of the steps *)

(** ** Column Name Normalizer *)

Lemma lower_ascii_idem c : lower_ascii (lower_ascii c) = lower_ascii c.
Proof. by destruct c as [[] [] [] [] [] [] [] []]. Qed.

Lemma lower_ascii_space c : Ascii.eqb (lower_ascii c) " " = Ascii.eqb c " ".
Proof. by destruct c as [[] [] [] [] [] [] [] []]. Qed.

Lemma lower_idem s : lower (lower s) = lower s.
Proof.
  unfold lower. induction s as [|c s IH]; [done|].
  cbn [str_map]. by rewrite lower_ascii_idem, IH.
Qed.

Lemma lower_replace_space s :
  lower (str_replace " " "_" s) = str_replace " " "_" (lower s).
Proof.
  unfold lower. induction s as [|c s IH]; [done|].
  cbn [str_map str_replace]. rewrite lower_ascii_space.
  destruct (Ascii.eqb c " ").
  - change ("_" +:+ ?x) with (String "_" x). cbn [str_map]. by rewrite IH.
  - cbn [str_map]. by rewrite IH.
Qed.

Lemma replace_space_free s :
  " "%char ∉ list_ascii_of_string (str_replace " " "_" s).
Proof.
  induction s as [|c s IH]; [apply not_elem_of_nil|].
  cbn [str_replace]. destruct (Ascii.eqb_spec c " ") as [->|Hc].
  - change ("_" +:+ ?x) with (String "_" x).
    cbn [list_ascii_of_string]. rewrite not_elem_of_cons. by split.
  - cbn [list_ascii_of_string]. rewrite not_elem_of_cons.
    split; [congruence|done].
Qed.

Lemma replace_space_id s :
  " "%char ∉ list_ascii_of_string s → str_replace " " "_" s = s.
Proof.
  induction s as [|c s IH]; [done|].
  cbn [list_ascii_of_string str_replace]. rewrite not_elem_of_cons.
  intros [Hc Hs]. destruct (Ascii.eqb_spec c " ") as [->|_]; [done|].
  by rewrite (IH Hs).
Qed.

Lemma clean_label_lower l : lower (clean_label l) = clean_label l.
Proof.
  unfold clean_label. case_decide; [done|].
  by rewrite lower_replace_space, lower_idem.
Qed.

Lemma clean_label_space_free l : " "%char ∉ list_ascii_of_string (clean_label l).
Proof.
  unfold clean_label. case_decide; [|apply replace_space_free].
  cbn. rewrite !not_elem_of_cons. repeat split; try done. apply not_elem_of_nil.
Qed.

Lemma clean_label_not_st l : clean_label l ≠ "st".
Proof. unfold clean_label. by case_decide. Qed.

Lemma clean_label_idem l : clean_label (clean_label l) = clean_label l.
Proof.
  pose proof (clean_label_lower l) as Hl.
  pose proof (replace_space_id _ (clean_label_space_free l)) as Hr.
  pose proof (clean_label_not_st l) as Hs.
  unfold clean_label at 1. rewrite Hl, Hr. by rewrite decide_False.
Qed.

Lemma rename_st_state x :
  default x (({[ "st" := "state" ]} : gmap string string) !! x)
  = if decide (x = "st") then "state" else x.
Proof.
  case_decide as H.
  - subst x. by rewrite lookup_singleton_eq.
  - by rewrite lookup_singleton_ne.
Qed.

Lemma clean_col_name_table t :
  Table.clean_col_name t = (λ p, (clean_label p.1, p.2)) <$> t.
Proof.
  unfold Table.clean_col_name, rename_columns, relabel.
  rewrite <- !list_fmap_compose. apply list_fmap_ext.
  intros _ [l s] _. cbn. by rewrite rename_st_state.
Qed.


(** X2.  [clean_col_name] is idempotent: normalising the labels of a
    table it returned changes nothing. *)
Theorem clean_col_name_idempotent (t : DataFrame) :
  (t' ← call clean_col_name t; call clean_col_name t') = call clean_col_name t.
Proof.
  rewrite clean_col_name_call. cbn [mbind outcome_bind].
  rewrite clean_col_name_call. f_equal.
  rewrite !clean_col_name_table, <- list_fmap_compose.
  apply list_fmap_ext. intros _ [l s] _. cbn. by rewrite clean_label_idem.
Qed.

(** X3.  [clean_col_name] does not keep labels apart: where two columns
    of the table given have labels that differ only in case, in spaces
    against underscores or as [st] against [state], the table returned
    has the same label twice. *)
Theorem clean_col_name_merges_labels (t t' : DataFrame) (i j : nat) (l1 l2 : string) :
  call clean_col_name t = Return t' →
  labels t !! i = Some l1 →
  labels t !! j = Some l2 →
  i ≠ j →
  clean_label l1 = clean_label l2 →
  ¬ NoDup (labels t').
Proof.
  rewrite clean_col_name_call, clean_col_name_table. intros [= <-] Hi Hj Hij Hl Hnd.
  apply Hij. eapply (NoDup_lookup _ i j (clean_label l1) Hnd).
  - unfold labels in *. rewrite <- list_fmap_compose.
    rewrite list_lookup_fmap in Hi |- *.
    destruct (t !! i) as [[l s]|]; [|done]. cbn in *. by injection Hi as ->.
  - unfold labels in *. rewrite <- list_fmap_compose.
    rewrite list_lookup_fmap in Hj |- *.
    destruct (t !! j) as [[l s]|]; [|done]. cbn in *. injection Hj as ->.
    by rewrite Hl.
Qed.

Lemma clean_col_name_merges_labels_witness :
  ¬ NoDup (labels [("state", [Str "Arizona"]); ("customer_id", [Int 7]);
                   ("state", [Str "AZ"])]).
Proof.
  apply (clean_col_name_merges_labels
           [("State", [Str "Arizona"]); ("Customer Id", [Int 7]); ("ST", [Str "AZ"])]
           _ 0 2 "State" "ST"); try reflexivity. lia.
Defined.

(** ** Null-Row Dropper *)

Lemma omap_Forall_ext {A B} (f g : A → option B) (l : list A) :
  Forall (λ x, f x = g x) l → omap f l = omap g l.
Proof.
  induction 1 as [|x l Hx _ IH]; [done|].
  cbn [omap list_omap]. by rewrite Hx, IH.
Qed.

Lemma row_fmap (f : string * Series → string * Series) (t : DataFrame) (i : nat) :
  row (f <$> t) i = omap (λ p, (f p).2 !! i) t.
Proof.
  unfold row. induction t as [|p t IH]; [done|].
  rewrite fmap_cons. cbn [omap list_omap]. by rewrite IH.
Qed.

Lemma select_length {A B} (keep : list bool) (l : list A) (l' : list B) :
  length l = length keep → length l' = length keep →
  length (select keep l) = length (select keep l').
Proof.
  revert l l'. induction keep as [|b keep IH]; intros [|x l] [|x' l']; try done.
  cbn [length select]. intros [= Hl] [= Hl'].
  destruct b; cbn [length]; by rewrite (IH l l').
Qed.

Lemma select_all_true {A} (keep : list bool) (l : list A) :
  Forall (λ b, b = true) keep → length l = length keep → select keep l = l.
Proof.
  intros H. revert l. induction H as [|b keep -> _ IH]; intros [|x l]; try done.
  cbn [length select]. intros [= Hl]. by rewrite (IH l).
Qed.

Lemma select_filter {A} (Q : A → bool) (l : list A) :
  select ((λ x, negb (Q x)) <$> l) l = filter (λ x, Q x = false) l.
Proof.
  induction l as [|x l IH]; [done|].
  rewrite fmap_cons. cbn [select]. rewrite filter_cons.
  destruct (Q x); cbn [negb].
  - by rewrite decide_False.
  - by rewrite decide_True, IH.
Qed.

Lemma rows_tail (t : DataFrame) (n : nat) :
  row t <$> seq 0 (S n)
  = row t 0 :: (row ((λ p, (p.1, tail p.2)) <$> t) <$> seq 0 n).
Proof.
  cbn [seq]. rewrite fmap_cons. f_equal.
  rewrite <- fmap_S_seq, <- list_fmap_compose. apply list_fmap_ext.
  intros _ i _. cbn. rewrite row_fmap. unfold row.
  apply omap_Forall_ext, Forall_true. intros p. cbn. by rewrite lookup_tail.
Qed.

(** Selecting cells column by column selects rows. *)
Lemma select_rows (keep : list bool) (t : DataFrame) :
  Forall (λ p, length p.2 = length keep) t →
  row ((λ p, (p.1, select keep p.2)) <$> t) <$> seq 0 (length (select keep keep))
  = select keep (row t <$> seq 0 (length keep)).
Proof.
  revert t. induction keep as [|b keep IH]; intros t Ht; [done|].
  set (T := (λ p : string * Series, (p.1, tail p.2)) <$> t).
  assert (HT : Forall (λ p, length p.2 = length keep) T).
  { apply Forall_fmap. eapply Forall_impl; [exact Ht|].
    intros [l [|x xs]]; cbn; [done|]. by intros [= ->]. }
  cbn [length]. rewrite (rows_tail t (length keep)). fold T.
  destruct b; cbn [select length].
  - rewrite rows_tail. f_equal.
    + rewrite row_fmap. unfold row. apply omap_Forall_ext.
      eapply Forall_impl; [exact Ht|]. by intros [l [|x xs]].
    + rewrite <- (IH T HT). do 2 f_equal. unfold T.
      rewrite <- !list_fmap_compose. apply Forall_fmap_ext_1.
      eapply Forall_impl; [exact Ht|]. by intros [l [|x xs]].
  - rewrite <- (IH T HT). do 2 f_equal. unfold T.
    rewrite <- list_fmap_compose. apply Forall_fmap_ext_1.
    eapply Forall_impl; [exact Ht|]. by intros [l [|x xs]].
Qed.

Lemma dropna_keep (t : DataFrame) :
  (λ i, negb (forallb isnull (row t i))) <$> seq 0 (nrows t)
  = (λ r, negb (empty_row r)) <$> rows t.
Proof. unfold rows. by rewrite <- list_fmap_compose. Qed.

Lemma labels_dropna_all t : labels (dropna_all t) = labels t.
Proof.
  unfold dropna_all, labels. rewrite <- list_fmap_compose.
  by apply list_fmap_ext.
Qed.

Lemma nrows_rows t : length (rows t) = nrows t.
Proof. unfold rows. by rewrite length_fmap, length_seq. Qed.

(** On a rectangular table [dropna] keeps the rows that have a cell
    which is not null, and the table stays rectangular. *)
Lemma dropna_all_rows t :
  rectangular t →
  rectangular (dropna_all t) ∧
  rows (dropna_all t) = filter (λ r, empty_row r = false) (rows t).
Proof.
  intros Ht. unfold dropna_all. rewrite dropna_keep.
  set (keep := (λ r, negb (empty_row r)) <$> rows t).
  assert (Hk : length keep = nrows t)
    by (unfold keep; by rewrite length_fmap, nrows_rows).
  assert (Ht' : Forall (λ p : string * Series, length p.2 = length keep) t)
    by by rewrite Hk.
  assert (Hn : nrows ((λ p : string * Series, (p.1, select keep p.2)) <$> t)
               = length (select keep keep) ∨ t = []).
  { destruct t as [|p t]; [by right|left]. rewrite fmap_cons. cbn [nrows snd].
    apply Forall_cons in Ht' as [Hp _]. by apply select_length. }
  destruct Hn as [Hn| ->]; [|done]. split.
  - unfold rectangular. rewrite Hn. apply Forall_fmap.
    eapply Forall_impl; [exact Ht'|]. intros p Hp. cbn.
    by apply select_length.
  - unfold rows at 1. rewrite Hn, (select_rows keep t Ht'), Hk.
    fold (rows t). apply select_filter.
Qed.

Lemma dropna_all_id t :
  rectangular t → Forall (λ r, empty_row r = false) (rows t) → dropna_all t = t.
Proof.
  intros Ht Hr. unfold dropna_all. rewrite dropna_keep.
  rewrite <- (list_fmap_id t) at 2. apply Forall_fmap_ext_1.
  eapply Forall_impl; [exact Ht|]. intros [l s] Hp. cbn in *.
  f_equal. apply select_all_true.
  - apply Forall_fmap. eapply Forall_impl; [exact Hr|].
    intros r Hr'. cbn. by rewrite Hr'.
  - by rewrite length_fmap, nrows_rows.
Qed.

(** X4.  On a rectangular table [drop_null_rows] returns a rectangular
    table with the same labels whose rows are, in their order, the rows
    of the table given that have a cell which is not null. *)
Theorem drop_null_rows_keeps_nonempty_rows (t : DataFrame) :
  rectangular t →
  ∃ t' : DataFrame,
    call drop_null_rows t = Return t' ∧
    labels t' = labels t ∧
    rectangular t' ∧
    rows t' = filter (λ r, empty_row r = false) (rows t).
Proof.
  intros Ht. exists (dropna_all t). split; [apply drop_null_rows_call|].
  split; [apply labels_dropna_all|]. by apply dropna_all_rows.
Qed.

Lemma drop_null_rows_keeps_nonempty_rows_witness :
  ∃ t' : DataFrame,
    call drop_null_rows raw_example = Return t' ∧
    labels t' = labels raw_example ∧
    rectangular t' ∧
    rows t' = filter (λ r, empty_row r = false) (rows raw_example).
Proof.
  apply (drop_null_rows_keeps_nonempty_rows raw_example).
  repeat (constructor; [reflexivity|]). constructor.
Defined.

(** X5.  [drop_null_rows] is idempotent on rectangular tables, and a
    rectangular table without an empty row is returned as it is. *)
Theorem drop_null_rows_idempotent (t : DataFrame) :
  rectangular t →
  (t' ← call drop_null_rows t; call drop_null_rows t') = call drop_null_rows t ∧
  (Forall (λ r, empty_row r = false) (rows t) → call drop_null_rows t = Return t).
Proof.
  intros Ht. rewrite !drop_null_rows_call. cbn [mbind outcome_bind].
  rewrite drop_null_rows_call. split.
  - f_equal. destruct (dropna_all_rows t Ht) as [Hr Hrows].
    apply dropna_all_id; [done|]. rewrite Hrows.
    apply Forall_forall. by intros r [? _]%list_elem_of_filter.
  - intros Hr. f_equal. by apply dropna_all_id.
Qed.

Lemma drop_null_rows_idempotent_witness :
  (t' ← call drop_null_rows raw_example; call drop_null_rows t')
  = call drop_null_rows raw_example ∧
  (Forall (λ r, empty_row r = false) (rows raw_example) →
   call drop_null_rows raw_example = Return raw_example).
Proof.
  apply (drop_null_rows_idempotent raw_example).
  repeat (constructor; [reflexivity|]). constructor.
Defined.

(** ** Gender Cleaner, on the cells it handles *)






(** ** Mapping cleaners: what becomes of the keys *)

Lemma replace_value_no_key d x k :
  closed_dict d → is_Some (d !! k) → replace_value d x ≠ Str k.
Proof.
  intros Hd [v Hk]. destruct x as [|k0|n|f]; try done. cbn.
  destruct (d !! k0) as [v0|] eqn:E.
  - intros [= ->]. rewrite (Hd k0 k E) in Hk. done.
  - intros [= ->]. congruence.
Qed.




(** ** Column cleaners keep the number of cells *)

Lemma lookup_column_elem c s t :
  lookup_column c t = Some s → ∃ l, (l, s) ∈ t.
Proof.
  induction t as [|[l s1] t IH]; [done|]. cbn.
  destruct (String.eqb l c).
  - intros [= ->]. exists l. apply list_elem_of_here.
  - intros [l' H]%IH. exists l'. by apply list_elem_of_further.
Qed.

Lemma rectangular_lengths t :
  rectangular t ↔ Forall (λ n, n = nrows t) (column_lengths t).
Proof. unfold rectangular, column_lengths. by rewrite Forall_fmap. Qed.

Lemma nrows_lengths t : nrows t = default 0%nat (head (column_lengths t)).
Proof. by destruct t. Qed.

Lemma rectangular_same_lengths t t' :
  column_lengths t' = column_lengths t → rectangular t → rectangular t'.
Proof.
  intros E. rewrite !rectangular_lengths, (nrows_lengths t'), (nrows_lengths t).
  by rewrite E.
Qed.

Lemma column_table_rows k column t t' :
  (∀ s s', k s = Return s' → length s' = length s) →
  rectangular t →
  column_table k column t = Return t' →
  rectangular t' ∧ column_lengths t' = column_lengths t.
Proof.
  intros Hk Ht. unfold column_table.
  destruct (lookup_column column t) as [s|] eqn:E; [|done].
  destruct (k s) as [s'|] eqn:Es; [|done]. intros [= <-].
  assert (Hl : column_lengths (assign_column column s' t) = column_lengths t).
  { rewrite (assign_column_present _ _ _ _ E). unfold column_lengths.
    rewrite <- list_fmap_compose. apply Forall_fmap_ext_1.
    destruct (lookup_column_elem _ _ _ E) as [l0 Hin].
    pose proof (proj1 (Forall_forall _ _) Ht _ Hin) as Hs. cbn in Hs.
    eapply Forall_impl; [exact Ht|]. intros [l s1] Hp. cbn in *.
    destruct (String.eqb l column); [|done]. cbn.
    rewrite (Hk _ _ Es). congruence. }
  split; [by eapply rectangular_same_lengths|done].
Qed.

Lemma Series_apply_length f s s' :
  Series_apply f s = Return s' → length s' = length s.
Proof. intros H%Series_apply_Return. symmetry. by eapply Forall2_length. Qed.

Lemma split_get_length s s' :
  Series_str_get 1 <$> Series_str_split "/" s = Return s' → length s' = length s.
Proof.
  unfold Series_str_split, Series_str_get.
  destruct (has_str_accessor s); [|done]. intros [= <-].
  by rewrite !length_fmap.
Qed.

Lemma fill_length py_float s s' :
  (s1 ← Series_astype_float py_float s;
   m ← Series_mean s1;
   mret (Series_fillna m s1)) = Return s' →
  length s' = length s.
Proof.
  destruct (Series_astype_float py_float s) as [s1|] eqn:E1; [|done].
  cbn [mbind outcome_bind]. destruct (Series_mean s1) as [m|]; [|done].
  intros [= <-]. unfold Series_fillna. rewrite length_fmap.
  by eapply Series_apply_length.
Qed.

(** X8.  The seven column cleaners keep the number of rows: given a
    rectangular table, the table they return is rectangular and each of
    its columns has as many cells as it had. *)
Theorem column_cleaners_keep_rows (py_float : string → option pyfloat) :
  keeps_rows clean_gender ∧
  keeps_rows clean_state ∧
  keeps_rows clean_education ∧
  keeps_rows clean_car_class ∧
  keeps_rows clean_clv ∧
  keeps_rows split_keep_middle ∧
  keeps_rows (fill_with_mean py_float).
Proof.
  repeat apply conj; intros column t t' Ht.
  - rewrite clean_gender_call. apply column_table_rows; [|done].
    apply Series_apply_length.
  - rewrite clean_state_call. apply column_table_rows; [|done].
    intros s s' [= <-]. apply length_fmap.
  - rewrite clean_education_call. apply column_table_rows; [|done].
    intros s s' [= <-]. apply length_fmap.
  - rewrite clean_car_class_call. apply column_table_rows; [|done].
    intros s s' [= <-]. apply length_fmap.
  - rewrite clean_clv_call. apply column_table_rows; [|done].
    apply Series_apply_length.
  - rewrite split_keep_middle_call. apply column_table_rows; [|done].
    apply split_get_length.
  - rewrite fill_with_mean_call. apply column_table_rows; [|done].
    apply fill_length.
Qed.

Lemma column_cleaners_keep_rows_witness :
  rectangular (assign_column "state" [Str "Arizona"; PyNone; Str "Oregon"] state_example) ∧
  column_lengths (assign_column "state" [Str "Arizona"; PyNone; Str "Oregon"] state_example)
  = column_lengths state_example.
Proof.
  destruct (column_cleaners_keep_rows decimal_float) as (_ & H & _).
  apply (H "state" state_example).
  - repeat (constructor; [reflexivity|]). constructor.
  - reflexivity.
Defined.

(** ** Lifetime Value Cleaner: numbers *)

Lemma clv_cell_dec x :
  {isnull x = true ∨ is_str x = true} + {isnull x = false ∧ is_str x = false}.
Proof. destruct x as [|v|n|[|q]]; cbn; auto. Qed.

Lemma clv_lambda_number x :
  isnull x = false ∧ is_str x = false → clv_lambda x = Raise AttributeError.
Proof. intros [H1 H2]. by destruct x as [|v|n|[|q]]. Qed.

Lemma clv_lambda_Return x y : clv_lambda x = Return y → y = strip_percent x.
Proof. destruct x as [|v|n|[|q]]; cbn; try done; by intros [= <-]. Qed.

Lemma Series_apply_clv_number s :
  Exists (λ x, isnull x = false ∧ is_str x = false) s →
  Series_apply clv_lambda s = Raise AttributeError.
Proof.
  induction s as [|x s IH]; intros H; [by apply Exists_nil in H|].
  rewrite Series_apply_cons.
  destruct (clv_cell_dec x) as [Hx|Hx].
  - rewrite (clv_lambda_text_or_null x Hx). cbn [mbind outcome_bind].
    apply Exists_cons in H as [[H1 H2]|H].
    + destruct Hx; congruence.
    + by rewrite (IH H).
  - by rewrite (clv_lambda_number x Hx).
Qed.

(** X9.  On a table that has the target column, [clean_clv] raises
    [AttributeError] exactly when the column holds a cell that is
    neither null nor a text (a number has no [replace]); it raises
    nothing else. *)
Theorem clean_clv_number_raises (column : string) (t : DataFrame) (s : Series) :
  lookup_column column t = Some s →
  (call (λ df, clean_clv df column) t = Raise AttributeError
   ↔ Exists (λ x, isnull x = false ∧ is_str x = false) s) ∧
  (∀ e, call (λ df, clean_clv df column) t = Raise e → e = AttributeError).
Proof.
  intros E. rewrite clean_clv_call. unfold column_table. rewrite E.
  destruct (Forall_Exists_dec _ _ clv_cell_dec s) as [Hs|Hs].
  - rewrite (Series_apply_fmap clv_lambda strip_percent)
      by (eapply Forall_impl; [exact Hs|]; apply clv_lambda_text_or_null).
    split; [|done]. split; [done|]. intros Hex. exfalso.
    apply Exists_exists in Hex as (x & Hin & H1 & H2).
    destruct (proj1 (Forall_forall _ _) Hs x Hin); congruence.
  - rewrite (Series_apply_clv_number s Hs). cbn. split; [done|]. by intros e [= <-].
Qed.

Lemma clean_clv_number_raises_witness :
  (call (λ df, clean_clv df "customer_lifetime_value") clv_example
     = Raise AttributeError
   ↔ Exists (λ x, isnull x = false ∧ is_str x = false)
            [Str "15.5"; PyNone; Float (fin 4.5)]) ∧
  (∀ e, call (λ df, clean_clv df "customer_lifetime_value") clv_example = Raise e →
        e = AttributeError).
Proof.
  apply (clean_clv_number_raises "customer_lifetime_value" clv_example
           [Str "15.5"; PyNone; Float (fin 4.5)]).
  reflexivity.
Defined.

(** ** Idempotence of the Lifetime Value Cleaner and the Mean Imputer *)

Lemma str_replace_percent_idem v :
  str_replace "%" "" (str_replace "%" "" v) = str_replace "%" "" v.
Proof.
  induction v as [|c v IH]; [done|].
  cbn [str_replace]. destruct (Ascii.eqb c "%") eqn:Ec.
  - exact IH.
  - cbn [str_replace]. by rewrite Ec, IH.
Qed.

Lemma Series_apply_clv_idem s s' :
  Series_apply clv_lambda s = Return s' → Series_apply clv_lambda s' = Return s'.
Proof.
  intros E%Series_apply_Return.
  rewrite (Series_apply_fmap _ id), list_fmap_id; [done|].
  induction E as [|x y s s' Hxy _ IH]; constructor; [|done].
  pose proof (clv_lambda_Return _ _ Hxy) as ->.
  destruct x as [|v|n|[|q]]; try done. cbn. by rewrite str_replace_percent_idem.
Qed.

Lemma to_float_is_float py_float x y :
  to_float py_float x = Return y → is_float y = true.
Proof.
  destruct x as [|v|n|f]; cbn; try (by intros [= <-]).
  destruct (py_float v); [by intros [= <-]|done].
Qed.

Lemma astype_float_is_float py_float s s' :
  Series_astype_float py_float s = Return s' → Forall (λ y, is_float y = true) s'.
Proof.
  intros E%Series_apply_Return.
  induction E as [|x y s s' Hxy _ IH]; constructor; [|done].
  by eapply to_float_is_float.
Qed.

Lemma astype_float_floats py_float s :
  Forall (λ y, is_float y = true) s → Series_astype_float py_float s = Return s.
Proof.
  intros H. unfold Series_astype_float.
  rewrite (Series_apply_fmap _ id), list_fmap_id; [done|].
  eapply Forall_impl; [exact H|]. by intros [|v|n|f].
Qed.

Lemma Series_numbers_floats s :
  Forall (λ y, is_float y = true) s → ∃ qs, Series_numbers s = Return qs.
Proof.
  induction 1 as [|x s Hx _ [qs IH]]; [by exists []|].
  destruct x as [|v|n|[|q]]; try done; cbn [Series_numbers].
  - by exists qs.
  - rewrite IH. by eexists.
Qed.

Lemma Series_mean_floats s :
  Forall (λ y, is_float y = true) s → ∃ m, Series_mean s = Return m.
Proof.
  intros [qs H]%Series_numbers_floats. unfold Series_mean. rewrite H. by eexists.
Qed.

Lemma fillna_is_float m s :
  Forall (λ y, is_float y = true) s →
  Forall (λ y, is_float y = true) (Series_fillna m s).
Proof.
  intros H. unfold Series_fillna. apply Forall_fmap.
  eapply Forall_impl; [exact H|]. intros x Hx. cbn. by destruct (isnull x).
Qed.

Lemma fillna_nan_floats s :
  Forall (λ y, is_float y = true) s → Series_fillna nan s = s.
Proof.
  intros H. unfold Series_fillna. rewrite <- (list_fmap_id s) at 2.
  apply Forall_fmap_ext_1. eapply Forall_impl; [exact H|].
  by intros [|v|n|[|q]].
Qed.

Lemma fillna_no_null m s :
  Forall (λ y, isnull y = false) s → Series_fillna m s = s.
Proof.
  intros H. unfold Series_fillna. rewrite <- (list_fmap_id s) at 2.
  apply Forall_fmap_ext_1. eapply Forall_impl; [exact H|].
  intros x Hx. cbn. by rewrite Hx.
Qed.

Lemma fillna_fin_no_null q s :
  Forall (λ y, isnull y = false) (Series_fillna (fin q) s).
Proof.
  unfold Series_fillna. apply Forall_fmap, Forall_true. intros x. cbn.
  by destruct (isnull x) eqn:Hx.
Qed.

Lemma fill_idem py_float s s' :
  let k := λ s, s1 ← Series_astype_float py_float s;
                m ← Series_mean s1;
                mret (Series_fillna m s1) in
  k s = Return s' → k s' = Return s'.
Proof.
  intros k. unfold k.
  destruct (Series_astype_float py_float s) as [s1|] eqn:E1; [|done].
  cbn [mbind outcome_bind].
  pose proof (astype_float_is_float _ _ _ E1) as Hf.
  destruct (Series_mean s1) as [m|] eqn:Em; [|done].
  cbn [mbind outcome_bind mret outcome_ret]. intros [= <-].
  destruct m as [|q].
  - rewrite (fillna_nan_floats s1 Hf), (astype_float_floats _ s1 Hf).
    cbn [mbind outcome_bind]. rewrite Em. cbn [mbind outcome_bind mret outcome_ret].
    by rewrite (fillna_nan_floats s1 Hf).
  - pose proof (fillna_is_float (fin q) s1 Hf) as Hf'.
    rewrite (astype_float_floats _ _ Hf'). cbn [mbind outcome_bind].
    destruct (Series_mean_floats _ Hf') as [m' ->].
    cbn [mbind outcome_bind mret outcome_ret].
    by rewrite (fillna_no_null m' _ (fillna_fin_no_null q s1)).
Qed.

(** X10.  [clean_clv] and [fill_with_mean] are idempotent: called on
    the table they returned, they return that table again. *)
Theorem clv_and_mean_idempotent (py_float : string → option pyfloat) :
  idempotent_cleaner clean_clv ∧ idempotent_cleaner (fill_with_mean py_float).
Proof.
  split; intros column t.
  - rewrite clean_clv_call.
    rewrite <- (column_table_idem (Series_apply clv_lambda) column t
                  Series_apply_clv_idem) at 2.
    destruct (column_table _ column t); [|done]. cbn. apply clean_clv_call.
  - rewrite fill_with_mean_call. unfold Table.fill_with_mean.
    rewrite <- (column_table_idem _ column t (fill_idem py_float)) at 2.
    destruct (column_table _ column t); [|done]. cbn.
    apply (fill_with_mean_call py_float).
Qed.

Lemma clv_and_mean_idempotent_witness :
  (t' ← call (λ df, fill_with_mean decimal_float df "customer_lifetime_value")
            clv_example;
   call (λ df, fill_with_mean decimal_float df "customer_lifetime_value") t')
  = call (λ df, fill_with_mean decimal_float df "customer_lifetime_value")
         clv_example.
Proof.
  destruct (clv_and_mean_idempotent decimal_float) as [_ H].
  apply (H "customer_lifetime_value" clv_example).
Defined.

(** ** Mean Imputer: texts that are no numbers *)

Lemma to_float_cases py_float x :
  (∃ v, x = Str v ∧ py_float v = None ∧ to_float py_float x = Raise ValueError) ∨
  (∃ y, to_float py_float x = Return y).
Proof.
  destruct x as [|v|n|f]; cbn; eauto.
  destruct (py_float v) eqn:E; eauto.
Qed.

Lemma astype_float_unparsable py_float s :
  Exists (λ x, ∃ v, x = Str v ∧ py_float v = None) s →
  Series_astype_float py_float s = Raise ValueError.
Proof.
  unfold Series_astype_float.
  induction s as [|x s IH]; intros H; [by apply Exists_nil in H|].
  rewrite Series_apply_cons.
  destruct (to_float_cases py_float x) as [(v & -> & Hv & ->)|[y Hy]]; [done|].
  rewrite Hy. cbn [mbind outcome_bind].
  apply Exists_cons in H as [(v & -> & Hv)|H].
  - cbn in Hy. by rewrite Hv in Hy.
  - by rewrite (IH H).
Qed.

Lemma astype_float_parsable py_float s :
  Forall (λ x, ∀ v, x = Str v → is_Some (py_float v)) s →
  ∃ s', Series_astype_float py_float s = Return s'.
Proof.
  unfold Series_astype_float.
  induction 1 as [|x s Hx _ [s' IH]]; [by exists []|].
  rewrite Series_apply_cons, IH.
  destruct (to_float_cases py_float x) as [(v & -> & Hv & _)|[y ->]].
  - destruct (Hx v eq_refl) as [? ?]. congruence.
  - by eexists.
Qed.

(** X11.  On a table that has the target column, [fill_with_mean]
    raises [ValueError] if the column holds a text that [float] does
    not read.  If [float] reads every text of the column, it returns
    the table with that column replaced by as many cells, all of them
    floats. *)
Theorem fill_with_mean_conversion (py_float : string → option pyfloat)
    (column : string) (t : DataFrame) (s : Series) :
  lookup_column column t = Some s →
  (Exists (λ x, ∃ v, x = Str v ∧ py_float v = None) s →
   call (λ df, fill_with_mean py_float df column) t = Raise ValueError) ∧
  (Forall (λ x, ∀ v, x = Str v → is_Some (py_float v)) s →
   ∃ s' : Series,
     call (λ df, fill_with_mean py_float df column) t
       = Return (assign_column column s' t) ∧
     length s' = length s ∧
     Forall (λ y, is_float y = true) s').
Proof.
  intros E. rewrite fill_with_mean_call.
  unfold Table.fill_with_mean, column_table. rewrite E. split.
  - intros H. by rewrite (astype_float_unparsable _ _ H).
  - intros H. destruct (astype_float_parsable _ _ H) as [s1 E1].
    rewrite E1. cbn [mbind outcome_bind].
    pose proof (astype_float_is_float _ _ _ E1) as Hf.
    destruct (Series_mean_floats _ Hf) as [m ->].
    cbn [mbind outcome_bind mret outcome_ret].
    exists (Series_fillna m s1). split; [done|]. split.
    + unfold Series_fillna. rewrite length_fmap.
      by eapply Series_apply_length.
    + by apply fillna_is_float.
Qed.

Lemma fill_with_mean_conversion_witness :
  (Exists (λ x, ∃ v, x = Str v ∧ decimal_float v = None) [Str "15.5%"; PyNone] →
   call (λ df, fill_with_mean decimal_float df "customer_lifetime_value")
        percent_example = Raise ValueError) ∧
  (Forall (λ x, ∀ v, x = Str v → is_Some (decimal_float v)) [Str "15.5%"; PyNone] →
   ∃ s' : Series,
     call (λ df, fill_with_mean decimal_float df "customer_lifetime_value")
          percent_example
       = Return (assign_column "customer_lifetime_value" s' percent_example) ∧
     length s' = 2%nat ∧
     Forall (λ y, is_float y = true) s').
Proof.
  apply (fill_with_mean_conversion decimal_float "customer_lifetime_value"
           percent_example [Str "15.5%"; PyNone]).
  reflexivity.
Defined.

(** ** Complaints Splitter: the segment kept *)

Lemma str_split_segments (sep : ascii) (v : string) :
  Forall (λ w, sep ∉ list_ascii_of_string w) (str_split sep v).
Proof.
  induction v as [|c v IH].
  - constructor; [apply not_elem_of_nil|constructor].
  - cbn [str_split]. destruct (Ascii.eqb_spec c sep) as [->|Hc].
    + constructor; [apply not_elem_of_nil|done].
    + destruct (str_split sep v) as [|w ws].
      * constructor; [|constructor]. cbn. rewrite not_elem_of_cons.
        split; [congruence|apply not_elem_of_nil].
      * apply Forall_cons in IH as [Hw Hws]. constructor; [|done].
        cbn. rewrite not_elem_of_cons. split; [congruence|done].
Qed.

Lemma second_segment_clean x :
  second_segment x = Float nan ∨
  ∃ w, second_segment x = Str w ∧ "/"%char ∉ list_ascii_of_string w.
Proof.
  destruct x as [|v|n|f]; cbn; auto.
  destruct (str_split "/" v !! 1%nat) as [w|] eqn:E; auto.
  right. exists w. split; [done|].
  exact (proj1 (Forall_lookup _ _) (str_split_segments "/" v) _ _ E).
Qed.



(** ** Numeric Coercion *)

Lemma num_to_int_call py_int t :
  call (num_to_int py_int) t = Table.num_to_int py_int t.
Proof. exact (runs_as_call _ _ t (num_to_int_runs_as py_int)). Qed.

Example num_to_int_example :
  call (num_to_int decimal_int) numeric_example
  = Return [("customer", [Str "A"; Str "B"]);
            ("customer_lifetime_value", [Int 15; Int 4]);
            ("income", [Int 100; Int 0]);
            ("monthly_premium_auto", [Int 7; Int 99]);
            ("number_of_open_complaints", [Int 5; Int 0]);
            ("total_claim_amount", [Int 2; Int (-2)])].
Proof. reflexivity. Qed.

Lemma lookup_columns_missing cs c t :
  c ∈ cs → lookup_column c t = None → Table.lookup_columns cs t = Raise KeyError.
Proof.
  intros Hc Hn. induction cs as [|c0 cs IH]; [by apply elem_of_nil in Hc|].
  cbn [Table.lookup_columns]. destruct (lookup_column c0 t) as [s|] eqn:E; [|done].
  apply elem_of_cons in Hc as [->|Hc]; [congruence|]. by rewrite (IH Hc).
Qed.







(** X13.  [num_to_int] raises [KeyError] on a table that lacks one of
    the five numeric columns. *)
Theorem num_to_int_missing_column (py_int : string → option Z)
    (c : string) (t : DataFrame) :
  c ∈ num_var → c ∉ labels t →
  call (num_to_int py_int) t = Raise KeyError.
Proof.
  intros Hc Hn%lookup_column_None. rewrite num_to_int_call.
  unfold Table.num_to_int. by rewrite (lookup_columns_missing _ _ _ Hc Hn).
Qed.

Lemma num_to_int_missing_column_witness :
  call (num_to_int decimal_int) clv_example = Raise KeyError.
Proof.
  apply (num_to_int_missing_column decimal_int "income" clv_example).
  - do 1 apply list_elem_of_further. apply list_elem_of_here.
  - by apply lookup_column_None.
Defined.







(** ** The runner *)

Lemma column_table_Return k column t t' :
  column_table k column t = Return t' →
  ∃ s s' : Series,
    lookup_column column t = Some s ∧ k s = Return s' ∧
    t' = assign_column column s' t.
Proof.
  unfold column_table. destruct (lookup_column column t) as [s|]; [|done].
  destruct (k s) as [s'|] eqn:E; [|done]. intros [= <-]. by exists s, s'.
Qed.

Lemma lookup_column_label c s t : lookup_column c t = Some s → c ∈ labels t.
Proof.
  intros E. destruct (decide (c ∈ labels t)) as [|Hn]; [done|].
  apply lookup_column_None in Hn. congruence.
Qed.

(** The tables the runner goes through, step after step *)
Lemma clean_dataframe_table_Return py_float t t' :
  clean_dataframe_table py_float t = Return t' →
  ∃ (g g' s s' e e' v v' n n' w w' : Series) (t3 t4 t5 t6 t7 : DataFrame),
    let t2 := dropna_all (Table.clean_col_name t) in
    (lookup_column "gender" t2 = Some g ∧
     Series_apply gender_lambda g = Return g' ∧
     t3 = assign_column "gender" g' t2) ∧
    (lookup_column "state" t3 = Some s ∧
     s' = Series_replace state_dict s ∧
     t4 = assign_column "state" s' t3) ∧
    (lookup_column "education" t4 = Some e ∧
     e' = Series_replace education_dict e ∧
     t5 = assign_column "education" e' t4) ∧
    (lookup_column "customer_lifetime_value" t5 = Some v ∧
     Series_apply clv_lambda v = Return v' ∧
     t6 = assign_column "customer_lifetime_value" v' t5) ∧
    (lookup_column "number_of_open_complaints" t6 = Some n ∧
     Series_str_get 1 <$> Series_str_split "/" n = Return n' ∧
     t7 = assign_column "number_of_open_complaints" n' t6) ∧
    (lookup_column "customer_lifetime_value" t7 = Some w ∧
     (s1 ← Series_astype_float py_float w;
      m ← Series_mean s1;
      mret (Series_fillna m s1)) = Return w' ∧
     t' = assign_column "customer_lifetime_value" w' t7).
Proof.
  unfold clean_dataframe_table, Table.fill_with_mean.
  unfold Default.clean_gender, Default.clean_state, Default.clean_education,
    Default.clean_clv, Default.split_keep_middle, Default.fill_with_mean.
  cbn [mbind outcome_bind].
  set (t2 := dropna_all (Table.clean_col_name t)).
  destruct (column_table _ "gender" t2) as [t3|] eqn:E3; [|done].
  cbn [mbind outcome_bind].
  destruct (column_table _ "state" t3) as [t4|] eqn:E4; [|done].
  cbn [mbind outcome_bind].
  destruct (column_table _ "education" t4) as [t5|] eqn:E5; [|done].
  cbn [mbind outcome_bind].
  destruct (column_table _ "customer_lifetime_value" t5) as [t6|] eqn:E6; [|done].
  cbn [mbind outcome_bind].
  destruct (column_table _ "number_of_open_complaints" t6) as [t7|] eqn:E7; [|done].
  cbn [mbind outcome_bind]. intros E8.
  apply column_table_Return in E3 as (g & g' & ? & ? & ?).
  apply column_table_Return in E4 as (s & s' & ? & [= ?] & ?).
  apply column_table_Return in E5 as (e & e' & ? & [= ?] & ?).
  apply column_table_Return in E6 as (v & v' & ? & ? & ?).
  apply column_table_Return in E7 as (n & n' & ? & ? & ?).
  apply column_table_Return in E8 as (w & w' & ? & ? & ?).
  by exists g, g', s, s', e, e', v, v', n, n', w, w', t3, t4, t5, t6, t7.
Qed.

Lemma clean_dataframe_table_labels py_float t t' :
  clean_dataframe_table py_float t = Return t' →
  labels t' = clean_label <$> labels t ∧
  Forall (λ c, c ∈ clean_label <$> labels t)
    ["gender"; "state"; "education"; "customer_lifetime_value";
     "number_of_open_complaints"].
Proof.
  intros H.
  apply clean_dataframe_table_Return in H
    as (g & g' & s & s' & e & e' & v & v' & n & n' & w & w'
        & t3 & t4 & t5 & t6 & t7 & H).
  cbn zeta in H.
  destruct H as ((Eg & _ & ->) & (Es & _ & ->) & (Ee & _ & ->) & (Ev & _ & ->)
                 & (En & _ & ->) & (Ew & _ & ->)).
  assert (Hl : labels (dropna_all (Table.clean_col_name t)) = clean_label <$> labels t).
  { rewrite labels_dropna_all, clean_col_name_table. unfold labels.
    rewrite <- !list_fmap_compose. apply list_fmap_ext. by intros _ [l x] _. }
  pose proof (lookup_column_label _ _ _ Eg) as Hg.
  pose proof (lookup_column_label _ _ _ Es) as Hs.
  pose proof (lookup_column_label _ _ _ Ee) as He.
  pose proof (lookup_column_label _ _ _ Ev) as Hv.
  pose proof (lookup_column_label _ _ _ En) as Hn.
  rewrite (labels_assign_column _ _ _ _ Ew).
  rewrite (labels_assign_column _ _ _ _ En) in *.
  rewrite (labels_assign_column _ _ _ _ Ev) in *.
  rewrite (labels_assign_column _ _ _ _ Ee) in *.
  rewrite (labels_assign_column _ _ _ _ Es) in *.
  rewrite (labels_assign_column _ _ _ _ Eg) in *.
  rewrite Hl in *. split; [done|].
  repeat (constructor; [done|]). constructor.
Qed.



Lemma split_get_clean n n' :
  Series_str_get 1 <$> Series_str_split "/" n = Return n' →
  Forall (λ y, y = Float nan ∨
               ∃ w, y = Str w ∧ "/"%char ∉ list_ascii_of_string w) n'.
Proof.
  unfold Series_str_split. destruct (has_str_accessor n); [|done].
  cbn. intros [= <-]. unfold Series_str_get. rewrite <- list_fmap_compose.
  apply Forall_fmap, Forall_true. intros x.
  pose proof (second_segment_clean x) as H. by destruct x as [|v|k|f].
Qed.

Lemma Series_apply_gender_domain g g' :
  Series_apply gender_lambda g = Return g' →
  Forall (λ y, y = Str "M" ∨ y = Str "F" ∨ y = Str "D") g'.
Proof.
  intros E%Series_apply_Return.
  induction E as [|x y s s' Hxy _ IH]; constructor; [|done].
  by eapply gender_lambda_domain.
Qed.

Lemma fill_is_float py_float w w' :
  (s1 ← Series_astype_float py_float w;
   m ← Series_mean s1;
   mret (Series_fillna m s1)) = Return w' →
  Forall (λ y, is_float y = true) w'.
Proof.
  destruct (Series_astype_float py_float w) as [s1|] eqn:E1; [|done].
  cbn [mbind outcome_bind]. destruct (Series_mean s1) as [m|]; [|done].
  intros [= <-]. by eapply fillna_is_float, astype_float_is_float.
Qed.

(** The cleaned columns of the table the runner returns *)
Lemma clean_dataframe_table_columns py_float t t' :
  clean_dataframe_table py_float t = Return t' →
  ∃ g s e v n : Series,
    lookup_column "gender" t' = Some g ∧
    lookup_column "state" t' = Some s ∧
    lookup_column "education" t' = Some e ∧
    lookup_column "customer_lifetime_value" t' = Some v ∧
    lookup_column "number_of_open_complaints" t' = Some n ∧
    Forall (λ y, y = Str "M" ∨ y = Str "F" ∨ y = Str "D") g ∧
    (∀ (y : value) (k : string), y ∈ s → is_Some (state_dict !! k) → y ≠ Str k) ∧
    (∀ y : value, y ∈ e → y ≠ Str "Bachelors") ∧
    Forall (λ y, is_float y = true) v ∧
    Forall (λ y, y = Float nan ∨
                 ∃ w, y = Str w ∧ "/"%char ∉ list_ascii_of_string w) n.
Proof.
  intros H.
  apply clean_dataframe_table_Return in H
    as (g & g' & s & s' & e & e' & v & v' & n & n' & w & w'
        & t3 & t4 & t5 & t6 & t7 & H).
  cbn zeta in H.
  destruct H as ((Eg & Hg & ->) & (Es & -> & ->) & (Ee & -> & ->) & (Ev & Hv & ->)
                 & (En & Hn & ->) & (Ew & Hw & ->)).
  exists g', (Series_replace state_dict s), (Series_replace education_dict e), w', n'.
  split; [|split; [|split; [|split; [|split]]]].
  - rewrite !lookup_assign_column_ne by done. by eapply lookup_assign_column.
  - rewrite !lookup_assign_column_ne by done. by eapply lookup_assign_column.
  - rewrite !lookup_assign_column_ne by done. by eapply lookup_assign_column.
  - by eapply lookup_assign_column.
  - rewrite !lookup_assign_column_ne by done. by eapply lookup_assign_column.
  - split; [by eapply Series_apply_gender_domain|].
    split; [|split; [|split]].
    + intros y k (x & -> & _)%list_elem_of_fmap Hk.
      by apply replace_value_no_key; [apply state_dict_closed|].
    + intros y (x & -> & _)%list_elem_of_fmap.
      by apply replace_value_no_key; [apply education_dict_closed|].
    + by eapply fill_is_float.
    + by eapply split_get_clean.
Qed.



Lemma rows_clean_col_name t :
  (rectangular t → rectangular (Table.clean_col_name t)) ∧
  rows (Table.clean_col_name t) = rows t.
Proof.
  rewrite clean_col_name_table.
  assert (Hn : nrows ((λ p : string * Series, (clean_label p.1, p.2)) <$> t) = nrows t)
    by by destruct t.
  split.
  - unfold rectangular. rewrite Hn. intros H. by apply Forall_fmap.
  - unfold rows. rewrite Hn. apply list_fmap_ext. intros _ i _.
    rewrite row_fmap. done.
Qed.

Lemma nrows_of_lengths t t' :
  column_lengths t' = column_lengths t → nrows t' = nrows t.
Proof. intros E. by rewrite !nrows_lengths, E. Qed.

(** The rows of the table the runner returns *)
Lemma clean_dataframe_table_rows py_float t t' :
  rectangular t →
  clean_dataframe_table py_float t = Return t' →
  rectangular t' ∧
  column_lengths t' = column_lengths (dropna_all (Table.clean_col_name t)) ∧
  nrows t' = length (filter (λ r, empty_row r = false) (rows t)).
Proof.
  intros Ht. destruct (rows_clean_col_name t) as [Hr1 Hrows1].
  assert (Ht1 : rectangular (Table.clean_col_name t)) by by apply Hr1.
  destruct (dropna_all_rows _ Ht1) as [Ht2 Hrows2]. rewrite Hrows1 in Hrows2.
  unfold clean_dataframe_table, Table.fill_with_mean. cbn [mbind outcome_bind].
  set (t2 := dropna_all (Table.clean_col_name t)) in *.
  destruct (column_table _ _ t2) as [t3|] eqn:E3; [|done]. cbn [mbind outcome_bind].
  destruct (column_table _ _ t3) as [t4|] eqn:E4; [|done]. cbn [mbind outcome_bind].
  destruct (column_table _ _ t4) as [t5|] eqn:E5; [|done]. cbn [mbind outcome_bind].
  destruct (column_table _ _ t5) as [t6|] eqn:E6; [|done]. cbn [mbind outcome_bind].
  destruct (column_table _ _ t6) as [t7|] eqn:E7; [|done]. cbn [mbind outcome_bind].
  intros E8.
  apply column_table_rows in E3 as [Ht3 L3]; [|apply Series_apply_length|done].
  apply column_table_rows in E4 as [Ht4 L4];
    [|intros ? ? [= <-]; apply length_fmap|done].
  apply column_table_rows in E5 as [Ht5 L5];
    [|intros ? ? [= <-]; apply length_fmap|done].
  apply column_table_rows in E6 as [Ht6 L6]; [|apply Series_apply_length|done].
  apply column_table_rows in E7 as [Ht7 L7]; [|apply split_get_length|done].
  apply column_table_rows in E8 as [Ht8 L8]; [|apply fill_length|done].
  split; [done|].
  assert (L : column_lengths t' = column_lengths t2) by congruence.
  split; [done|].
  by rewrite (nrows_of_lengths _ _ L), <- nrows_rows, Hrows2.
Qed.

(** X18.  On a rectangular table, the table the runner returns is
    rectangular and has one row for each row of the table given that
    has a cell which is not null. *)
Theorem clean_dataframe_row_count (py_float : string → option pyfloat) {A : Type}
    (column : A) (t t' : DataFrame) :
  rectangular t →
  call (λ df, clean_dataframe py_float df column) t = Return t' →
  rectangular t' ∧
  nrows t' = length (filter (λ r, empty_row r = false) (rows t)).
Proof.
  intros Ht. rewrite clean_dataframe_call. intros H.
  by destruct (clean_dataframe_table_rows _ _ _ Ht H) as (? & _ & ?).
Qed.

Lemma clean_dataframe_row_count_witness :
  ∃ t' : DataFrame,
    call (λ df, clean_dataframe decimal_float df ()) raw_example = Return t' ∧
    rectangular t' ∧
    nrows t' = length (filter (λ r, empty_row r = false) (rows raw_example)).
Proof.
  eexists. split; [reflexivity|].
  apply (clean_dataframe_row_count decimal_float () raw_example).
  - repeat (constructor; [reflexivity|]). constructor.
  - reflexivity.
Defined.

(** ** Running the runner on its own result *)

Lemma clean_col_name_fixed t :
  (∀ l, l ∈ labels t → clean_label l = l) → Table.clean_col_name t = t.
Proof.
  intros H. rewrite clean_col_name_table. rewrite <- (list_fmap_id t) at 2.
  apply Forall_fmap_ext_1, Forall_forall. intros [l s] Hin. cbn.
  rewrite H; [done|]. unfold labels. apply list_elem_of_fmap. by exists (l, s).
Qed.

Lemma row_elem (t : DataFrame) l s i y :
  (l, s) ∈ t → s !! i = Some y → y ∈ row t i.
Proof.
  intros Hin Hi. unfold row. apply list_elem_of_omap. by exists (l, s).
Qed.

Lemma empty_row_false (r : list value) y :
  y ∈ r → isnull y = false → empty_row r = false.
Proof.
  intros Hin Hy. unfold empty_row.
  induction Hin as [y r|y x r _ IH]; cbn.
  - by rewrite Hy.
  - rewrite (IH Hy). by destruct (isnull x).
Qed.

Lemma no_empty_row_of_column (t : DataFrame) c s :
  rectangular t → lookup_column c t = Some s →
  Forall (λ y, isnull y = false) s →
  Forall (λ r, empty_row r = false) (rows t).
Proof.
  intros Ht E Hs. destruct (lookup_column_elem _ _ _ E) as [l Hin].
  pose proof (proj1 (Forall_forall _ _) Ht _ Hin) as Hlen. cbn in Hlen.
  unfold rows. apply Forall_fmap, Forall_forall. intros i Hi. cbn.
  apply elem_of_seq in Hi as [_ Hi]. cbn in Hi.
  destruct (lookup_lt_is_Some_2 s i) as [y Hy]; [by rewrite Hlen|].
  apply (empty_row_false _ y); [by eapply row_elem|].
  exact (proj1 (Forall_lookup _ _) Hs _ _ Hy).
Qed.

Lemma column_table_eq k c t s s' :
  lookup_column c t = Some s → k s = Return s' →
  column_table k c t = Return (assign_column c s' t).
Proof. intros E Hk. unfold column_table. by rewrite E, Hk. Qed.

Lemma column_table_raise k c t s e :
  lookup_column c t = Some s → k s = Raise e → column_table k c t = Raise e.
Proof. intros E Hk. unfold column_table. by rewrite E, Hk. Qed.

Lemma Series_apply_gender_fixed g :
  Forall (λ y, y = Str "M" ∨ y = Str "F" ∨ y = Str "D") g →
  Series_apply gender_lambda g = Return g.
Proof.
  intros H. rewrite (Series_apply_fmap _ id), list_fmap_id; [done|].
  eapply Forall_impl; [exact H|]. apply gender_lambda_fixed.
Qed.

(** X19.  The runner is not made to run twice.  If it returned a table
    for a rectangular table, and that table has a lifetime value that
    is not null, then the runner called on the returned table raises
    [AttributeError]: the lifetime values are floats by then, and
    [clean_clv] calls [replace] on them. *)
Theorem clean_dataframe_not_rerunnable (py_float : string → option pyfloat)
    {A B : Type} (c1 : A) (c2 : B) (t t' : DataFrame) (v : Series) :
  rectangular t →
  call (λ df, clean_dataframe py_float df c1) t = Return t' →
  lookup_column "customer_lifetime_value" t' = Some v →
  Exists (λ x, isnull x = false) v →
  call (λ df, clean_dataframe py_float df c2) t' = Raise AttributeError.
Proof.
  intros Ht. rewrite !clean_dataframe_call. intros H Ev Hv.
  destruct (clean_dataframe_table_labels _ _ _ H) as [Hl _].
  destruct (clean_dataframe_table_rows _ _ _ Ht H) as (Ht' & _ & _).
  destruct (clean_dataframe_table_columns _ _ _ H)
    as (g & s & e & v0 & n & Eg & Es & Ee & Ev0 & En & Hg & _ & _ & Hf & _).
  rewrite Ev in Ev0. injection Ev0 as <-.
  assert (H1 : Table.clean_col_name t' = t').
  { apply clean_col_name_fixed. intros l. rewrite Hl.
    intros (l0 & -> & _)%list_elem_of_fmap. apply clean_label_idem. }
  assert (H2 : dropna_all t' = t').
  { apply dropna_all_id; [done|].
    apply (no_empty_row_of_column t' "gender" g Ht' Eg).
    eapply Forall_impl; [exact Hg|]. by intros y [->|[->| ->]]. }
  unfold clean_dataframe_table. cbn [mbind outcome_bind]. rewrite H1, H2.
  unfold Default.clean_gender, Default.clean_state, Default.clean_education,
    Default.clean_clv.
  rewrite (column_table_eq _ "gender" t' g g Eg (Series_apply_gender_fixed g Hg)).
  cbn [mbind outcome_bind].
  set (t3 := assign_column "gender" g t').
  assert (Es3 : lookup_column "state" t3 = Some s)
    by (unfold t3; by rewrite lookup_assign_column_ne).
  rewrite (column_table_eq (λ s, Return (Series_replace state_dict s))
             "state" t3 s _ Es3 eq_refl).
  cbn [mbind outcome_bind].
  set (t4 := assign_column "state" _ t3).
  assert (Ee4 : lookup_column "education" t4 = Some e)
    by (unfold t4, t3; by rewrite !lookup_assign_column_ne).
  rewrite (column_table_eq (λ s, Return (Series_replace education_dict s))
             "education" t4 e _ Ee4 eq_refl).
  cbn [mbind outcome_bind].
  set (t5 := assign_column "education" _ t4).
  assert (Ev5 : lookup_column "customer_lifetime_value" t5 = Some v)
    by (unfold t5, t4, t3; by rewrite !lookup_assign_column_ne).
  rewrite (column_table_raise _ "customer_lifetime_value" t5 v AttributeError Ev5);
    [done|].
  apply Series_apply_clv_number.
  apply Exists_exists in Hv as (x & Hin & Hx). apply Exists_exists.
  exists x. split; [done|]. split; [done|].
  pose proof (proj1 (Forall_forall _ _) Hf x Hin). by destruct x.
Qed.

Lemma clean_dataframe_not_rerunnable_witness :
  call (λ df, clean_dataframe decimal_float df ())
       [("customer", [Str "A1"; Str "B2"; Str "C3"]);
        ("state", [Str "Arizona"; Str "California"; Str "Oregon"]);
        ("gender", [Str "F"; Str "D"; Str "M"]);
        ("education", [Str "Bachelor"; Str "Master"; PyNone]);
        ("customer_lifetime_value",
         [Float (fin 15.5); Float (mean_of [15.5; 4.5]%Q); Float (fin 4.5)]);
        ("vehicle_class", [Str "Sports Car"; Str "SUV"; Str "Luxury Car"]);
        ("number_of_open_complaints", [Str "5"; Str "0"; Float nan])]
  = Raise AttributeError.
Proof.
  apply (clean_dataframe_not_rerunnable decimal_float () () raw_example _
           [Float (fin 15.5); Float (mean_of [15.5; 4.5]%Q); Float (fin 4.5)]).
  - repeat (constructor; [reflexivity|]). constructor.
  - reflexivity.
  - reflexivity.
  - constructor. reflexivity.
Defined.

(** ** Mapping cleaners on different columns *)

Lemma assign_column_comm c1 c2 s1 s2 a b t :
  c1 ≠ c2 → lookup_column c1 t = Some a → lookup_column c2 t = Some b →
  assign_column c1 s1 (assign_column c2 s2 t)
  = assign_column c2 s2 (assign_column c1 s1 t).
Proof.
  intros Hne E1 E2.
  assert (E1' : lookup_column c1 (assign_column c2 s2 t) = Some a)
    by by rewrite lookup_assign_column_ne.
  assert (E2' : lookup_column c2 (assign_column c1 s1 t) = Some b)
    by by rewrite lookup_assign_column_ne.
  rewrite (assign_column_present _ _ _ _ E1'), (assign_column_present _ _ _ _ E2').
  rewrite (assign_column_present _ _ _ _ E1), (assign_column_present _ _ _ _ E2).
  rewrite <- !list_fmap_compose. apply list_fmap_ext. intros _ [l s] _. cbn.
  destruct (String.eqb l c1) eqn:H1, (String.eqb l c2) eqn:H2;
    cbn; rewrite ?H1, ?H2; try done.
  apply String.eqb_eq in H1, H2. congruence.
Qed.

Lemma replace_tables_comm d1 d2 c1 c2 t :
  c1 ≠ c2 →
  (t1 ← column_table (λ s, Return (Series_replace d1 s)) c1 t;
   column_table (λ s, Return (Series_replace d2 s)) c2 t1)
  = (t1 ← column_table (λ s, Return (Series_replace d2 s)) c2 t;
     column_table (λ s, Return (Series_replace d1 s)) c1 t1).
Proof.
  intros Hne. unfold column_table.
  destruct (lookup_column c1 t) as [a|] eqn:E1,
           (lookup_column c2 t) as [b|] eqn:E2;
    cbn [mbind outcome_bind mret outcome_ret];
    rewrite ?lookup_assign_column_ne, ?E1, ?E2 by done; try done.
  cbn [mbind outcome_bind mret outcome_ret]. f_equal.
  symmetry. by eapply assign_column_comm.
Qed.

(** X20.  On different columns the State, Education and Vehicle Class
    cleaners commute: whichever of two is called first, the table
    returned (or the [KeyError] raised) is the same. *)
Theorem mapping_cleaners_commute (c1 c2 : string) (t : DataFrame) :
  c1 ≠ c2 →
  (t1 ← call (λ df, clean_state df c1) t; call (λ df, clean_education df c2) t1)
  = (t1 ← call (λ df, clean_education df c2) t; call (λ df, clean_state df c1) t1) ∧
  (t1 ← call (λ df, clean_state df c1) t; call (λ df, clean_car_class df c2) t1)
  = (t1 ← call (λ df, clean_car_class df c2) t; call (λ df, clean_state df c1) t1) ∧
  (t1 ← call (λ df, clean_education df c1) t; call (λ df, clean_car_class df c2) t1)
  = (t1 ← call (λ df, clean_car_class df c2) t; call (λ df, clean_education df c1) t1).
Proof.
  intros Hne. repeat apply conj.
  - transitivity
      (t1 ← column_table (λ s, Return (Series_replace state_dict s)) c1 t;
       column_table (λ s, Return (Series_replace education_dict s)) c2 t1).
    + rewrite clean_state_call. destruct (column_table _ c1 t); [|done].
      cbn. apply clean_education_call.
    + rewrite (replace_tables_comm _ _ _ _ _ Hne), clean_education_call.
      destruct (column_table _ c2 t); [|done]. cbn. symmetry. apply clean_state_call.
  - transitivity
      (t1 ← column_table (λ s, Return (Series_replace state_dict s)) c1 t;
       column_table (λ s, Return (Series_replace car_classes_dict s)) c2 t1).
    + rewrite clean_state_call. destruct (column_table _ c1 t); [|done].
      cbn. apply clean_car_class_call.
    + rewrite (replace_tables_comm _ _ _ _ _ Hne), clean_car_class_call.
      destruct (column_table _ c2 t); [|done]. cbn. symmetry. apply clean_state_call.
  - transitivity
      (t1 ← column_table (λ s, Return (Series_replace education_dict s)) c1 t;
       column_table (λ s, Return (Series_replace car_classes_dict s)) c2 t1).
    + rewrite clean_education_call. destruct (column_table _ c1 t); [|done].
      cbn. apply clean_car_class_call.
    + rewrite (replace_tables_comm _ _ _ _ _ Hne), clean_car_class_call.
      destruct (column_table _ c2 t); [|done]. cbn. symmetry.
      apply clean_education_call.
Qed.

Lemma mapping_cleaners_commute_witness :
  (t1 ← call (λ df, clean_state df "state") raw_example;
   call (λ df, clean_education df "Education") t1)
  = (t1 ← call (λ df, clean_education df "Education") raw_example;
     call (λ df, clean_state df "state") t1) ∧
  (t1 ← call (λ df, clean_state df "ST") raw_example;
   call (λ df, clean_car_class df "Vehicle Class") t1)
  = (t1 ← call (λ df, clean_car_class df "Vehicle Class") raw_example;
     call (λ df, clean_state df "ST") t1).
Proof.
  split.
  - apply (mapping_cleaners_commute "state" "Education" raw_example). done.
  - apply (mapping_cleaners_commute "ST" "Vehicle Class" raw_example). done.
Defined.
